(** * Message Control Plane (src/typescript/mcp/mcp.ts)

    A shallow embedding of the TypeScript class [MessageControlPlane] and a
    verification of the dispatch pipeline it implements:
    validate -> route -> invoke -> respond -> intercept.

    Modelling decisions, all taken from the source:

    - Values typed [any] in the source ([content], the entries of
      [metadata], every value caught by [catch (error: any)]) are values of
      the inductive type [JsValue]: the primitives, and plain objects whose
      properties are such values again (what JSON delivers).  Numbers are
      the safe integers, which Number::toString prints as their decimal
      digits, and NaN.  No property of an object is callable; so ToString,
      which a template literal applies, throws a TypeError on an object that
      has a [toString] property of its own.
    - Validators, handlers and interceptors are asynchronous plug-ins.  A
      plug-in is a function of its argument and of a plug-in world [W] (the
      closures, spies and external services it can touch); it either
      completes with a value or throws an arbitrary [JsValue].  [await] only
      sequences the calls, so the pipeline is a state-and-exception monad
      over [W] that also collects the observable events of the run.
    - A request and its message are not written to (section 3 of the
      specification): validators and handlers communicate through what they
      return or throw and through [W].  An interceptor is handed the
      Response object itself and may assign to its fields, as the
      interceptor of [exampleUsage] does; when it completes, the object it
      returns is all the pipeline goes on with, and when it throws, the
      pipeline is left with the object as the interceptor left it.  An
      interceptor is therefore a call together with the state in which the
      call leaves its argument.
    - [Date.now()], [new Date()] and [Math.random()] are read from an
      [Environment] record.
    - The registry and the two chains do not change while one request is
      being processed. *)

From stdpp Require Import base option list strings gmap pretty.
From Stdlib Require Import ZArith.

#[local] Set Warnings "-register-all".

(** ** JavaScript values *)

(** [Number.isSafeInteger(n)] *)
Definition isSafeInteger (n : Z) : bool :=
  (Z.abs n <=? 9007199254740991)%Z.

Inductive JsValue :=
| JUndefined
| JNull
| JBool (b : bool)
| JNum (n : Z) (safe : isSafeInteger n = true)
| JNaN
| JStr (s : string)
| JObj (fields : gmap string JsValue).

(** Outcome of evaluating an expression or awaiting a promise. *)
Inductive Completion (A : Type) :=
| Normal (a : A)
| Throw (e : JsValue).
Arguments Normal {A} a.
Arguments Throw {A} e.

Module Js.

(** ToBoolean: the falsy values are undefined, null, false, 0, NaN and
    the empty string. *)
Definition truthy (v : JsValue) : bool :=
  match v with
  | JUndefined | JNull | JNaN => false
  | JBool b => b
  | JNum n _ => negb (Z.eqb n 0)
  | JStr s => negb (String.eqb s "")
  | JObj _ => true
  end.


(** [a || b] *)
Definition or (a b : JsValue) : JsValue := if truthy a then a else b.

(** [null] and [undefined], the two values without properties. *)
Definition nullish (v : JsValue) : bool :=
  match v with
  | JUndefined | JNull => true
  | _ => false
  end.

(** [new Error(msg)] and the TypeError the engine raises itself, seen as
    property bags: a caught value is only ever asked for its [message]. *)
Definition Error (msg : string) : JsValue :=
  JObj {[ "message" := JStr msg ]}.

Definition TypeError (msg : string) : JsValue :=
  JObj {[ "name" := JStr "TypeError"; "message" := JStr msg ]}.

(** The string ToString yields where it yields one: a primitive prints as
    itself, an object through [Object.prototype.toString]. *)
Definition toString (v : JsValue) : string :=
  match v with
  | JUndefined => "undefined"
  | JNull => "null"
  | JBool true => "true"
  | JBool false => "false"
  | JNum n _ => pretty n
  | JNaN => "NaN"
  | JStr s => s
  | JObj _ => "[object Object]"
  end.

(** ToString, as a template literal applies it.  On an object it looks up
    [toString], then [valueOf], and calls the first that is callable and
    returns a primitive.  A [toString] property of the object's own hides
    the inherited one and is not callable; [valueOf], own or inherited,
    gives no primitive; so the conversion throws.  Without such a property
    the inherited [toString] answers. *)
Definition ToString (v : JsValue) : Completion string :=
  match v with
  | JObj fields =>
      match fields !! "toString" with
      | Some _ => Throw (TypeError "Cannot convert object to primitive value")
      | None => Normal (toString v)
      end
  | _ => Normal (toString v)
  end.

(** ToString completes on [v]. *)
Definition printable (v : JsValue) : bool :=
  match ToString v with
  | Normal _ => true
  | Throw _ => false
  end.

(** [v.message]: reading a property of null or undefined throws; a
    primitive has no such property; an object yields the property or
    undefined. *)
Definition get_message (v : JsValue) : Completion JsValue :=
  match v with
  | JUndefined =>
      Throw (TypeError "Cannot read properties of undefined (reading 'message')")
  | JNull =>
      Throw (TypeError "Cannot read properties of null (reading 'message')")
  | JObj fields => Normal (default JUndefined (fields !! "message"))
  | _ => Normal JUndefined
  end.

(** [md?.type] for an optional record [md]. *)
Definition optional_type (md : option (gmap string JsValue)) : JsValue :=
  match md with
  | None => JUndefined
  | Some fields => default JUndefined (fields !! "type")
  end.

End Js.

(** ** Data model: the three interfaces of mcp.ts *)

Record MCPMessage := {
  id : string;
  source : string;
  conversationId : string;
  timestamp : Z;
  content : JsValue;
  metadata : option (gmap string JsValue)
}.

Record MCPRequest := {
  message : MCPMessage
}.

(** The anonymous object type of [MCPResponse.error].  Its [message] field is
    declared [string]; it is filled from [error.message || "..."] on a caught
    [any], so at run time it holds whatever truthy value the thrown object
    carries. *)
Record MCPError := {
  code : string;
  error_message : JsValue
}.

Record MCPResponse := {
  originalMessageId : string;
  responseMessage : MCPMessage;
  success : bool;
  error : option MCPError
}.

(** What [Date.now()], [new Date()] and
    [Math.random().toString(36).substring(7)] evaluate to while a response is
    being built. *)
Record Environment := {
  Date_now : Z;
  new_Date : Z;
  Math_random_suffix : string
}.

(** ** Observable events of a run

    [Console] events are the calls to [console.log], [console.warn] and
    [console.error]; [Invoke] events record, like a test spy, which plug-in
    was called and on what argument. *)

Inductive Level := LogLevel | WarnLevel | ErrorLevel.

Inductive Plugin :=
| PValidator (index : nat) (request : MCPRequest)
| PHandler (messageType : string) (msg : MCPMessage)
| PInterceptor (index : nat) (response : MCPResponse).

Inductive Event :=
| Console (level : Level) (text : string) (args : list JsValue)
| Invoke (p : Plugin).

Definition console_log (text : string) : Event := Console LogLevel text [].
Definition console_warn (text : string) : Event := Console WarnLevel text [].
Definition console_error (text : string) (args : list JsValue) : Event :=
  Console ErrorLevel text args.

Definition is_invoke (ev : Event) : bool :=
  match ev with Invoke _ => true | Console _ _ _ => false end.

(** The plug-in calls of a trace, in order. *)
Definition invocations (t : list Event) : list Event := List.filter is_invoke t.

Definition is_handler_call (ev : Event) : bool :=
  match ev with Invoke (PHandler _ _) => true | _ => false end.

Definition is_interceptor_call (ev : Event) : bool :=
  match ev with Invoke (PInterceptor _ _) => true | _ => false end.

(** ** The class MessageControlPlane *)

Section Plane.

Context {W : Type}.

(** An asynchronous computation: from the plug-in world to a completion,
    the new world and the events emitted on the way.  The world and the
    events survive a throw. *)
Definition Async (A : Type) : Type := W → Completion A * W * list Event.

#[global] Instance Async_ret : MRet Async := λ A a w, (Normal a, w, []).

#[global] Instance Async_bind : MBind Async := λ A B k m w,
  match m w with
  | (Normal a, w1, t1) => let '(r, w2, t2) := k a w1 in (r, w2, t1 ++ t2)
  | (Throw e, w1, t1) => (Throw e, w1, t1)
  end.

Definition emit (ev : Event) : Async unit := λ w, (Normal (), w, [ev]).

(** The plug-in world at this point of the run. *)
Definition world : Async W := λ w, (Normal w, w, []).

(** Evaluation of a pure expression that may throw. *)
Definition eval {A} (c : Completion A) : Async A := λ w, (c, w, []).

(** [await p] for the promise of a plug-in call. *)
Definition await {A} (p : W → Completion A * W) : Async A :=
  λ w, let '(c, w1) := p w in (c, w1, []).

(** [try { body } catch (error) { handler }] *)
Definition try_catch {A} (body : Async A) (handler : JsValue → Async A) : Async A :=
  λ w,
    match body w with
    | (Throw error, w1, t1) =>
        let '(r, w2, t2) := handler error w1 in (r, w2, t1 ++ t2)
    | completed => completed
    end.

(** The three plug-in shapes.
    [(request: MCPRequest) => Promise<void>],
    [(message: MCPMessage) => Promise<MCPMessage | null>],
    [(response: MCPResponse) => Promise<MCPResponse>]. *)
Definition Validator : Type := MCPRequest → W → Completion unit * W.
Definition Handler : Type := MCPMessage → W → Completion (option MCPMessage) * W.
Definition Interception : Type := MCPResponse → W → Completion MCPResponse * W.

(** An interceptor receives the Response object itself.  [intercept] is
    the call: the promise's completion and the new world.  [leaves] is the
    state of the object it was given once the call is over, which is what
    the caller still holds when the call throws. *)
Record Interceptor := {
  intercept :> MCPResponse → W → Completion MCPResponse * W;
  leaves : MCPResponse → W → MCPResponse
}.

(** An interceptor that does not assign to the object it is given. *)
Definition reads_only (f : Interception) : Interceptor :=
  {| intercept := f; leaves := λ response _, response |}.

Record MessageControlPlane := {
  messageHandlers : gmap string Handler;
  requestValidators : list Validator;
  responseInterceptors : list Interceptor
}.

(** [new MessageControlPlane()] *)
Definition new_MessageControlPlane : MessageControlPlane * list Event :=
  ({| messageHandlers := ∅; requestValidators := []; responseInterceptors := [] |},
   [console_log "MCP_TS: MessageControlPlane inicializado."]).

Definition registerMessageHandler (messageType : string) (handler : Handler)
    (this : MessageControlPlane) : MessageControlPlane * list Event :=
  ({| messageHandlers := <[messageType := handler]> (messageHandlers this);
      requestValidators := requestValidators this;
      responseInterceptors := responseInterceptors this |},
   (match messageHandlers this !! messageType with
    | Some _ =>
        [console_warn ("MCP_TS: Ya existe un manejador para el tipo de mensaje '"
                       +:+ messageType +:+ "'. Será sobrescrito.")]
    | None => []
    end)
   ++ [console_log ("MCP_TS: Manejador registrado para el tipo de mensaje '"
                    +:+ messageType +:+ "'.")]).

Definition addRequestValidator (validator : Validator)
    (this : MessageControlPlane) : MessageControlPlane * list Event :=
  ({| messageHandlers := messageHandlers this;
      requestValidators := requestValidators this ++ [validator];
      responseInterceptors := responseInterceptors this |},
   [console_log "MCP_TS: Validador de solicitud añadido."]).

Definition addResponseInterceptor (interceptor : Interceptor)
    (this : MessageControlPlane) : MessageControlPlane * list Event :=
  ({| messageHandlers := messageHandlers this;
      requestValidators := requestValidators this;
      responseInterceptors := responseInterceptors this ++ [interceptor] |},
   [console_log "MCP_TS: Interceptor de respuesta añadido."]).

(** [buildErrorResponse] *)
Definition buildErrorResponse (env : Environment) (originalMessageId : string)
    (errorCode : string) (errorMessage : JsValue) : MCPResponse :=
  let errorResponseMessage :=
    {| id := "error-" +:+ pretty (Date_now env) +:+ "-" +:+ Math_random_suffix env;
       source := "mcp_error_handler";
       conversationId := "conv-for-" +:+ originalMessageId;
       timestamp := new_Date env;
       content := JObj {[ "error" := JStr errorCode; "message" := errorMessage ]};
       metadata := Some {[ "originalMessageId" := JStr originalMessageId ]} |} in
  {| originalMessageId := originalMessageId;
     responseMessage := errorResponseMessage;
     success := false;
     error := Some {| code := errorCode; error_message := errorMessage |} |}.

(** [request.message.metadata?.type || 'default'] *)
Definition messageTypeOf (request : MCPRequest) : JsValue :=
  Js.or (Js.optional_type (metadata (message request))) (JStr "default").

(** [this.messageHandlers.get(messageType)]: every key of the map is a
    string, so a key of another type finds nothing. *)
Definition Map_get (handlers : gmap string Handler) (key : JsValue) : option Handler :=
  match key with
  | JStr s => handlers !! s
  | _ => None
  end.

(** [for (const validator of this.requestValidators) await validator(request)].
    The [Invoke] event is the spy's record of the call that follows. *)
Fixpoint validate_all (validators : list Validator) (index : nat)
    (request : MCPRequest) : Async unit :=
  match validators with
  | [] => mret ()
  | validator :: rest =>
      emit (Invoke (PValidator index request));;
      await (validator request);;
      validate_all rest (S index) request
  end.

(** [for (const interceptor of this.responseInterceptors)
       mcpResponse = await interceptor(mcpResponse)]
    inside its [try].  [mcpResponse] is the variable carried by the loop;
    the result is the object it refers to when the loop is left, and the
    error caught if it is left by a throw: a throwing call assigns nothing
    to the variable, which still refers to the output of the last call that
    completed, in the state the throwing interceptor left that object. *)
Fixpoint intercept_all (interceptors : list Interceptor) (index : nat)
    (mcpResponse : MCPResponse) : Async (MCPResponse * option JsValue) :=
  match interceptors with
  | [] => mret (mcpResponse, None)
  | interceptor :: rest =>
      emit (Invoke (PInterceptor index mcpResponse));;
      before ← world;
      step ← try_catch (next ← await (interceptor mcpResponse); mret (inr next))
                       (λ error, mret (inl error));
      match step with
      | inr next => intercept_all rest (S index) next
      | inl error => mret (leaves interceptor mcpResponse before, Some error)
      end
  end.

(** The message built when the handler returns [null]. *)
Definition noResponseSystemMessage (env : Environment) (request : MCPRequest) : MCPMessage :=
  {| id := "system-response-" +:+ pretty (Date_now env) +:+ "-" +:+ Math_random_suffix env;
     source := "mcp_system";
     conversationId := conversationId (message request);
     timestamp := new_Date env;
     content := JStr ("El mensaje " +:+ id (message request)
                      +:+ " fue procesado pero no generó una respuesta directa.");
     metadata := Some {[ "originalMessageId" := JStr (id (message request));
                         "status" := JStr "PROCESSED_NO_REPLY" ]} |}.

(** The object literal [{ originalMessageId: request.message.id,
    responseMessage: ..., success: true }] of both branches of step 3. *)
Definition successResponse (request : MCPRequest) (responseMessage : MCPMessage)
    : MCPResponse :=
  {| originalMessageId := id (message request);
     responseMessage := responseMessage;
     success := true;
     error := None |}.

(** Step 3 of [processRequest]: the response built from what the handler
    returned, with the line it logs. *)
Definition buildResponse (env : Environment) (request : MCPRequest)
    (processedMessage : option MCPMessage) : Async MCPResponse :=
  match processedMessage with
  | Some processed =>
      let mcpResponse := successResponse request processed in
      emit (console_log ("MCP_TS: Mensaje ID: " +:+ id (message request)
                         +:+ " procesado exitosamente."));;
      mret mcpResponse
  | None =>
      let mcpResponse := successResponse request (noResponseSystemMessage env request) in
      emit (console_log ("MCP_TS: Mensaje ID: " +:+ id (message request)
                         +:+ " procesado, handler devolvió null."));;
      mret mcpResponse
  end.

(** Step 4 of [processRequest]: the interceptor chain and the final
    [return mcpResponse]. *)
Definition runInterceptors (this : MessageControlPlane) (request : MCPRequest)
    (mcpResponse : MCPResponse) : Async MCPResponse :=
  '(mcpResponse, fault) ← intercept_all (responseInterceptors this) 0 mcpResponse;
  match fault with
  | None =>
      emit (console_log ("MCP_TS: Interceptores de respuesta ejecutados para mensaje ID: "
                         +:+ id (message request)))
  | Some error =>
      emit (console_error ("MCP_TS: Error en interceptor de respuesta para mensaje ID: "
                           +:+ id (message request)) [error])
  end;;
  mret mcpResponse.

(** [processRequest].  A [try] block that falls through yields [None]; a
    [catch] block that executes [return] yields the response returned. *)
Definition processRequest (this : MessageControlPlane) (env : Environment)
    (request : MCPRequest) : Async MCPResponse :=
  emit (console_log ("MCP_TS: Procesando solicitud para mensaje ID: "
                     +:+ id (message request)));;
  (* 1. Validar la solicitud *)
  rejected ← try_catch
    (validate_all (requestValidators this) 0 request;;
     emit (console_log ("MCP_TS: Solicitud validada para mensaje ID: "
                        +:+ id (message request)));;
     mret None)
    (λ error,
       emit (console_error ("MCP_TS: Error de validación para mensaje ID: "
                            +:+ id (message request)) [error]);;
       msg ← eval (Js.get_message error);
       mret (Some (buildErrorResponse env (id (message request)) "VALIDATION_ERROR"
                     (Js.or msg (JStr "Error de validación desconocido.")))));
  match rejected with
  | Some response => mret response
  | None =>
      (* 2. Encontrar y ejecutar el manejador de mensajes apropiado *)
      let messageType := messageTypeOf request in
      match Map_get (messageHandlers this) messageType with
      | None =>
          (* the template literal is evaluated outside every [try] *)
          text ← eval (Js.ToString messageType);
          let errorMsg :=
            "No se encontró un manejador para el tipo de mensaje '"
            +:+ text +:+ "' (ID: " +:+ id (message request) +:+ ")." in
          emit (console_error ("MCP_TS: " +:+ errorMsg) []);;
          mret (buildErrorResponse env (id (message request)) "HANDLER_NOT_FOUND"
                  (JStr errorMsg))
      | Some handler =>
          outcome ← try_catch
            (text ← eval (Js.ToString messageType);
             emit (console_log ("MCP_TS: Ejecutando manejador '" +:+ text
                                +:+ "' para mensaje ID: " +:+ id (message request)));;
             emit (Invoke (PHandler text (message request)));;
             processedMessage ← await (handler (message request));
             mret (inr processedMessage))
            (λ error,
               text ← eval (Js.ToString messageType);
               emit (console_error ("MCP_TS: Error en el manejador '"
                                    +:+ text
                                    +:+ "' para mensaje ID: " +:+ id (message request))
                                   [error]);;
               msg ← eval (Js.get_message error);
               mret (inl (buildErrorResponse env (id (message request)) "HANDLER_ERROR"
                            (Js.or msg (JStr "Error desconocido en el manejador.")))));
          match outcome with
          | inl response => mret response
          | inr processedMessage =>
              (* 3. Construir la respuesta *)
              mcpResponse ← buildResponse env request processedMessage;
              (* 4. Ejecutar interceptores de respuesta *)
              runInterceptors this request mcpResponse
          end
      end
  end.

(** [sendMessage] *)
Definition sendMessage (this : MessageControlPlane) (env : Environment)
    (message : MCPMessage) : Async MCPResponse :=
  emit (console_log ("MCP_TS: sendMessage llamado para mensaje ID: " +:+ id message
                     +:+ " desde " +:+ source message));;
  let request := {| message := message |} in
  processRequest this env request.

End Plane.

Arguments Async W A : clear implicits.
Arguments Validator W : clear implicits.
Arguments Handler W : clear implicits.
Arguments Interception W : clear implicits.
Arguments Interceptor W : clear implicits.
Arguments MessageControlPlane W : clear implicits.

(** ** Vocabulary of the specification *)

Section Vocabulary.

Context {W : Type}.

(** The calls [validator(request)] for the validators at positions
    [index], ..., [index + n - 1]. *)
Definition validator_calls (request : MCPRequest) (index n : nat) : list Event :=
  (λ k, Invoke (PValidator k request)) <$> seq index n.

(** The calls [interceptor(r)] for consecutive interceptors, starting at
    position [index], on the given arguments. *)
Fixpoint interceptor_calls (index : nat) (inputs : list MCPResponse) : list Event :=
  match inputs with
  | [] => []
  | r :: rest => Invoke (PInterceptor index r) :: interceptor_calls (S index) rest
  end.

(** [validators_pass request vs w w1]: run one after the other from world
    [w], the validators [vs] all complete, leaving world [w1]. *)
Inductive validators_pass (request : MCPRequest) :
    list (Validator W) → W → W → Prop :=
| pass_nil w : validators_pass request [] w w
| pass_cons validator rest w w1 w2 :
    validator request w = (Normal (), w1) →
    validators_pass request rest w1 w2 →
    validators_pass request (validator :: rest) w w2.

(** [interceptors_pass fs r w inputs r1 w1]: run one after the other from
    response [r] and world [w], each on the output of the one before, the
    interceptors [fs] all complete; [inputs] are the arguments they were
    called on, [r1] is the last output and [w1] the final world. *)
Inductive interceptors_pass :
    list (Interceptor W) → MCPResponse → W → list MCPResponse → MCPResponse → W → Prop :=
| ipass_nil r w : interceptors_pass [] r w [] r w
| ipass_cons (interceptor : Interceptor W) rest r w next w1 inputs r2 w2 :
    interceptor r w = (Normal next, w1) →
    interceptors_pass rest next w1 inputs r2 w2 →
    interceptors_pass (interceptor :: rest) r w (r :: inputs) r2 w2.

(** Every interceptor of [fs] preserves [P]: the Response it returns has
    [P] when the one it was given had, and so has the Response it was
    given, as it leaves it, when it throws. *)
Definition preserved_by (P : MCPResponse → Prop) (fs : list (Interceptor W)) : Prop :=
  ∀ (interceptor : Interceptor W) r w,
    interceptor ∈ fs → P r →
    (∀ next w1, interceptor r w = (Normal next, w1) → P next) ∧
    (∀ e w1, interceptor r w = (Throw e, w1) → P (leaves interceptor r w)).

(** Left-to-right composition of interceptors: the output of [f] is the
    input of [g], a throw stops the composition. *)
Definition then_interceptor (f g : Interception W) : Interception W :=
  λ r w,
    match f r w with
    | (Normal next, w1) => g next w1
    | (Throw e, w1) => (Throw e, w1)
    end.

Definition compose_interceptors (fs : list (Interceptor W)) : Interception W :=
  fold_left (λ composed f, then_interceptor composed (intercept f)) fs
            (λ r w, (Normal r, w)).

(** The interceptor [f] computes the function [g] on responses, whatever
    it does to the world. *)
Definition computes (f : Interceptor W) (g : MCPResponse → MCPResponse) : Prop :=
  ∀ r w, ∃ w1, f r w = (Normal (g r), w1).

(** The response step 3 builds from what the handler returned. *)
Definition producedResponse (env : Environment) (request : MCPRequest)
    (processedMessage : option MCPMessage) : MCPResponse :=
  successResponse request
    (match processedMessage with
     | Some processed => processed
     | None => noResponseSystemMessage env request
     end).

(** The invariant of section 3: [success == false] iff [error] is present. *)
Definition consistent (r : MCPResponse) : Prop :=
  success r = false ↔ is_Some (error r).



End Vocabulary.

(** ** Concrete configurations

    The plug-in world is a journal (a list of strings) to which every
    plug-in appends its name when it is called, like the [callOrder] array
    of the test suite. *)

Module Examples.

Definition Journal : Type := list string.

Definition env0 : Environment :=
  {| Date_now := 1700000000000; new_Date := 1700000000000;
     Math_random_suffix := "k3x9q" |}.

(** After [createSampleMessage] of the test suite; a type given here is
    always written to the metadata, the empty string included. *)
Definition createSampleMessage (id : string) (content : JsValue)
    (type : option string) : MCPMessage :=
  {| id := id;
     source := "test-source";
     conversationId := "conv-test";
     timestamp := 1700000000000;
     content := content;
     metadata := (λ t, {[ "type" := JStr t ]}) <$> type |}.

Definition passing_validator (name : string) : Validator Journal :=
  λ _ journal, (Normal (), journal ++ [name]).

(** [async () => { throw e; }] *)
Definition rejecting_validator (name : string) (e : JsValue) : Validator Journal :=
  λ _ journal, (Throw e, journal ++ [name]).

(** [async (message) => ({ ...message, content: 'handled' })] *)
Definition replying_handler : Handler Journal :=
  λ message journal,
    (Normal (Some {| id := id message;
                     source := source message;
                     conversationId := conversationId message;
                     timestamp := timestamp message;
                     content := JStr "handled";
                     metadata := metadata message |}),
     journal ++ ["handler"]).

(** [async () => null] *)
Definition silent_handler : Handler Journal :=
  λ _ journal, (Normal None, journal ++ ["handler"]).

(** [async () => { throw e; }] *)
Definition failing_handler (e : JsValue) : Handler Journal :=
  λ _ journal, (Throw e, journal ++ ["handler"]).

(** [async (res) => ({ ...res, responseMessage: { ...res.responseMessage,
      metadata: { ...(res.responseMessage.metadata || {}), [key]: true } } })] *)
Definition tagging_interceptor (key : string) (res : MCPResponse) : MCPResponse :=
  {| originalMessageId := originalMessageId res;
     responseMessage :=
       {| id := id (responseMessage res);
          source := source (responseMessage res);
          conversationId := conversationId (responseMessage res);
          timestamp := timestamp (responseMessage res);
          content := content (responseMessage res);
          metadata :=
            Some (<[key := JBool true]>
                    (default ∅ (metadata (responseMessage res)))) |};
     success := success res;
     error := error res |}.

Definition tagging (key : string) : Interceptor Journal :=
  reads_only (λ res journal, (Normal (tagging_interceptor key res), journal ++ [key])).

(** [async () => { throw new Error('Interceptor failed'); }] *)
Definition failing_interceptor : Interceptor Journal :=
  reads_only
    (λ _ journal, (Throw (Js.Error "Interceptor failed"), journal ++ ["faulty"])).



(** An interceptor that answers every response with a refusal of its
    own. *)
Definition refusing_interceptor : Interceptor Journal :=
  reads_only
    (λ res journal,
       (Normal {| originalMessageId := originalMessageId res;
                  responseMessage :=
                    {| id := "refusal";
                       source := "policy";
                       conversationId := conversationId (responseMessage res);
                       timestamp := timestamp (responseMessage res);
                       content := JStr "withheld";
                       metadata := None |};
                  success := false;
                  error := Some {| code := "WITHHELD"; error_message := JStr "withheld" |} |},
        journal ++ ["refuse"])).

Definition plane (handlers : gmap string (Handler Journal))
    (validators : list (Validator Journal))
    (interceptors : list (Interceptor Journal)) : MessageControlPlane Journal :=
  {| messageHandlers := handlers;
     requestValidators := validators;
     responseInterceptors := interceptors |}.

(** One validator, a replying handler for "typeA", one interceptor. *)
Definition basic_plane : MessageControlPlane Journal :=
  plane {[ "typeA" := replying_handler ]} [passing_validator "v1"] [tagging "audit"].

(** The second of three validators rejects with [e]. *)
Definition rejecting_plane (e : JsValue) : MessageControlPlane Journal :=
  plane {[ "typeA" := replying_handler ]}
    [passing_validator "v1"; rejecting_validator "v2" e; passing_validator "v3"]
    [tagging "audit"].



(** The handler for "typeA" returns null. *)
Definition silent_plane (interceptors : list (Interceptor Journal))
    : MessageControlPlane Journal :=
  plane {[ "typeA" := silent_handler ]} [passing_validator "v1"] interceptors.

(** The handler for "typeA" throws [e]. *)
Definition failing_handler_plane (e : JsValue) : MessageControlPlane Journal :=
  plane {[ "typeA" := failing_handler e ]} [passing_validator "v1"] [tagging "audit"].

(** No handler at all. *)
Definition unrouted_plane (validators : list (Validator Journal))
    : MessageControlPlane Journal :=
  plane ∅ validators [tagging "audit"].

(** Only the key "default" has a handler. *)
Definition default_plane (handler : Handler Journal) : MessageControlPlane Journal :=
  plane {[ "default" := handler ]} [passing_validator "v1"] [].

(** Two interceptors, A then B. *)
Definition two_interceptor_plane : MessageControlPlane Journal :=
  plane {[ "typeA" := replying_handler ]} [] [tagging "A"; tagging "B"].

Definition typed_request : MCPRequest :=
  {| message := createSampleMessage "msg-1" (JStr "hello") (Some "typeA") |}.

(** What [replying_handler] answers to [typed_request]. *)
Definition typed_reply : MCPMessage :=
  {| id := "msg-1"; source := "test-source"; conversationId := "conv-test";
     timestamp := 1700000000000; content := JStr "handled";
     metadata := Some {[ "type" := JStr "typeA" ]} |}.

Definition untyped_request : MCPRequest :=
  {| message := createSampleMessage "msg-default" (JStr "default test") None |}.


(** A message whose type is the number 5: [metadata: { type: 5 }]. *)
Definition numeric_type_request : MCPRequest :=
  {| message :=
       {| id := "msg-5"; source := "test-source"; conversationId := "conv-test";
          timestamp := 1700000000000; content := JStr "hello";
          metadata := Some {[ "type" := JNum 5 eq_refl ]} |} |}.

(** A message whose type is an object with a property named toString:
    [metadata: { type: { toString: 5 } }]. *)
Definition unprintable_type_request : MCPRequest :=
  {| message :=
       {| id := "msg-obj"; source := "test-source"; conversationId := "conv-test";
          timestamp := 1700000000000; content := JStr "hello";
          metadata :=
            Some {[ "type" := JObj {[ "toString" := JNum 5 eq_refl ]} ]} |} |}.

End Examples.

(** ** The configuration of exampleUsage

    [exampleUsage] builds a plane with one validator, two handlers and one
    interceptor, all anonymous functions of mcp.ts, and sends four messages
    through it.  The plug-ins and the plane are embedded here; the four
    sends are calls of [sendMessage] on this plane.  The world of these
    plug-ins is the clock they read and the lines they print; their
    [setTimeout] pauses have no other effect than letting time pass, which
    the clock accounts for by giving an arbitrary reading at every read. *)

Module Usage.

Record World := {
  reads : nat;
  clock : nat → Z;
  printed : list Event
}.

(** [console.log(...)] inside a plug-in. *)
Definition print (ev : Event) (w : World) : World :=
  {| reads := reads w; clock := clock w; printed := printed w ++ [ev] |}.

(** [Date.now()] and [new Date()]: the next reading of the clock. *)
Definition read_clock (w : World) : Z * World :=
  (clock w (reads w),
   {| reads := S (reads w); clock := clock w; printed := printed w |}).

(** The double-quote character. *)
Definition quote : string := String (Ascii.ascii_of_nat 34) EmptyString.

(** [v.command]. *)
Definition get_command (v : JsValue) : Completion JsValue :=
  match v with
  | JUndefined =>
      Throw (Js.TypeError "Cannot read properties of undefined (reading 'command')")
  | JNull =>
      Throw (Js.TypeError "Cannot read properties of null (reading 'command')")
  | JObj fields => Normal (default JUndefined (fields !! "command"))
  | _ => Normal JUndefined
  end.

(** [v === 'PING'] *)
Definition is_PING (v : JsValue) : bool :=
  match v with
  | JStr s => String.eqb s "PING"
  | _ => false
  end.

(** The validator of exampleUsage. *)
Definition exampleValidator : Validator World :=
  λ request w,
    let w1 := print (console_log ("MCP_TS_VALIDATOR: Validando mensaje ID: "
                                  +:+ id (message request))) w in
    if Js.truthy (content (message request))
    then (Normal (), w1)
    else (Throw (Js.Error "El contenido del mensaje no puede estar vacío."), w1).

(** The handler registered for 'text_message'.  Its first statement
    prints the content through a template literal, so a content that
    ToString cannot convert makes the handler throw before it has printed
    anything. *)
Definition textMessageHandler : Handler World :=
  λ message w,
    match Js.ToString (content message) with
    | Throw e => (Throw e, w)
    | Normal text =>
        let w1 := print (console_log
                           ("MCP_TS_HANDLER (text_message): Procesando mensaje de texto: "
                            +:+ quote +:+ text +:+ quote)) w in
        match Js.ToString (content message) with
        | Throw e => (Throw e, w1)
        | Normal text =>
            let replyContent :=
              "Respuesta procesada para: " +:+ quote +:+ text +:+ quote in
            let '(now, w2) := read_clock w1 in
            let '(date, w3) := read_clock w2 in
            (Normal (Some {| id := "response-" +:+ id message +:+ "-" +:+ pretty now;
                             source := "agent_text_processor";
                             conversationId := conversationId message;
                             timestamp := date;
                             content := JStr replyContent;
                             metadata :=
                               Some {[ "processedBy"
                                         := JStr "text_message_handler_v1" ]} |}),
             w3)
        end
    end.

(** The handler registered for 'system_command'. *)
Definition systemCommandHandler : Handler World :=
  λ message w,
    let w1 := print (Console LogLevel
                       "MCP_TS_HANDLER (system_command): Procesando comando:"
                       [content message]) w in
    match get_command (content message) with
    | Throw e => (Throw e, w1)
    | Normal command =>
        if is_PING command
        then
          let '(date, w2) := read_clock w1 in
          (Normal (Some {| id := "pong-" +:+ id message;
                           source := "system_core";
                           conversationId := conversationId message;
                           timestamp := date;
                           content := JObj {[ "status" := JStr "PONG";
                                              "details" := JStr "System is responsive" ]};
                           metadata :=
                             Some {[ "processedBy"
                                       := JStr "system_command_handler_v1" ]} |}),
           w2)
        else (Normal None, w1)
    end.

Section Interceptor.

(** [Date.prototype.toISOString] of the runtime. *)
Variable toISOString : Z → string.

(** The interceptor of exampleUsage.  It writes [interceptedAt] into the
    metadata of the response message and returns the response it was given;
    in this configuration that metadata object is always one the handler or
    the dispatcher has just built. *)
Definition exampleInterception : Interception World :=
  λ response w,
    let w1 := print (console_log
                       ("MCP_TS_INTERCEPTOR: Interceptando respuesta para mensaje original ID: "
                        +:+ originalMessageId response)) w in
    let '(date, w2) := read_clock w1 in
    let stamp := JStr (toISOString date) in
    (Normal {| originalMessageId := originalMessageId response;
               responseMessage :=
                 {| id := id (responseMessage response);
                    source := source (responseMessage response);
                    conversationId := conversationId (responseMessage response);
                    timestamp := timestamp (responseMessage response);
                    content := content (responseMessage response);
                    metadata :=
                      match metadata (responseMessage response) with
                      | Some fields => Some (<["interceptedAt" := stamp]> fields)
                      | None => Some {[ "interceptedAt" := stamp ]}
                      end |};
               success := success response;
               error := error response |},
     w2).

(** It returns the object it was given, so it leaves that object in the
    state it returns. *)
Definition exampleInterceptor : Interceptor World :=
  {| intercept := exampleInterception;
     leaves := λ response w,
       match exampleInterception response w with
       | (Normal written, _) => written
       | (Throw _, _) => response
       end |}.

(** The plane of exampleUsage, built by the calls it makes, with the lines
    these calls log. *)
Definition exampleUsage_mcp : MessageControlPlane World * list Event :=
  let '(mcp, e0) := new_MessageControlPlane in
  let '(mcp, e1) := addRequestValidator exampleValidator mcp in
  let '(mcp, e2) := registerMessageHandler "text_message" textMessageHandler mcp in
  let '(mcp, e3) := registerMessageHandler "system_command" systemCommandHandler mcp in
  let '(mcp, e4) := addResponseInterceptor exampleInterceptor mcp in
  (mcp, e0 ++ e1 ++ e2 ++ e3 ++ e4).

End Interceptor.

(** The world after the validator of exampleUsage has logged its line. *)
Definition validated_world (request : MCPRequest) (w : World) : World :=
  print (console_log ("MCP_TS_VALIDATOR: Validando mensaje ID: "
                      +:+ id (message request))) w.

(** A world and a formatter to run the example on. *)
Definition world0 : World :=
  {| reads := 0; clock := λ n, (1700000000000 + Z.of_nat n)%Z; printed := [] |}.

Definition fixed_iso (t : Z) : string := "2023-11-14T22:13:20.000Z".

(** Ejemplo 2 of exampleUsage, with a fixed id. *)
Definition systemCommandMessage : MCPMessage :=
  {| id := "cmd-msg-1"; source := "admin_tool"; conversationId := "conv-system-ops";
     timestamp := 1700000000000;
     content := JObj {[ "command" := JStr "PING" ]};
     metadata := Some {[ "type" := JStr "system_command" ]} |}.

(** Ejemplo 1 of exampleUsage, with a fixed id. *)
Definition userTextMessage : MCPMessage :=
  {| id := "user-msg-1"; source := "user_client_A"; conversationId := "conv-123";
     timestamp := 1700000000000;
     content := JStr "Hola";
     metadata := Some {[ "type" := JStr "text_message"; "priority" := JStr "high" ]} |}.

(** A system command that is not a PING. *)
Definition statusCommandMessage : MCPMessage :=
  {| id := "cmd-msg-2"; source := "admin_tool"; conversationId := "conv-system-ops";
     timestamp := 1700000000000;
     content := JObj {[ "command" := JStr "STATUS" ]};
     metadata := Some {[ "type" := JStr "system_command" ]} |}.

(** A text message whose content is an object with a property named
    toString: [content: { toString: 5 }]. *)
Definition unprintableTextMessage : MCPMessage :=
  {| id := "user-msg-2"; source := "user_client_A"; conversationId := "conv-123";
     timestamp := 1700000000000;
     content := JObj {[ "toString" := JNum 5 eq_refl ]};
     metadata := Some {[ "type" := JStr "text_message" ]} |}.

(** Ejemplo 4 of exampleUsage, with a fixed id: [content: null]. *)
Definition invalidMessage : MCPMessage :=
  {| id := "invalid-msg-1"; source := "user_client_B"; conversationId := "conv-789";
     timestamp := 1700000000000;
     content := JNull;
     metadata := Some {[ "type" := JStr "text_message" ]} |}.

End Usage.

(** ** Running the two loops *)

Section Loops.

Context {W : Type}.
Implicit Types (w : W) (request : MCPRequest) (this : MessageControlPlane W).
Implicit Types (validator : Validator W) (handler : Handler W).
Implicit Types (interceptor : Interceptor W) (r : MCPResponse).

Lemma validate_all_cons validator rest index request w :
  validate_all (validator :: rest) index request w =
  match validator request w with
  | (Normal _, w1) =>
      let '(c, w2, t) := validate_all rest (S index) request w1 in
      (c, w2, Invoke (PValidator index request) :: t)
  | (Throw e, w1) => (Throw e, w1, [Invoke (PValidator index request)])
  end.
Proof.
  cbn. unfold mbind, Async_bind, emit, await.
  destruct (validator request w) as [[u|e] w1]; [|reflexivity].
  destruct (validate_all rest (S index) request w1) as [[c w2] t]. reflexivity.
Qed.

Lemma validate_all_pass request validators index w w1 :
  validators_pass request validators w w1 →
  validate_all validators index request w =
    (Normal (), w1, validator_calls request index (length validators)).
Proof.
  intros Hpass. revert index.
  induction Hpass as [w|validator rest w w1 w2 Hv _ IH]; intros index; [reflexivity|].
  rewrite validate_all_cons, Hv, IH. reflexivity.
Qed.

Lemma validate_all_fail request pre validator post index e w w1 w2 :
  validators_pass request pre w w1 →
  validator request w1 = (Throw e, w2) →
  validate_all (pre ++ validator :: post) index request w =
    (Throw e, w2, validator_calls request index (S (length pre))).
Proof.
  intros Hpass Hfail. revert index.
  induction Hpass as [w|v rest w w1 w3 Hv _ IH]; intros index; simpl app.
  - rewrite validate_all_cons, Hfail. reflexivity.
  - rewrite validate_all_cons, Hv, (IH Hfail). reflexivity.
Qed.

(** The validators either all pass or there is a first one that throws. *)
Lemma validators_run request validators w :
  (∃ w1, validators_pass request validators w w1) ∨
  (∃ pre validator post e w1 w2,
      validators = pre ++ validator :: post ∧
      validators_pass request pre w w1 ∧
      validator request w1 = (Throw e, w2)).
Proof.
  revert w. induction validators as [|validator rest IH]; intros w.
  - left. eexists. constructor.
  - destruct (validator request w) as [[[]|e] w1] eqn:Hv.
    + destruct (IH w1) as [[w2 Hpass]|(pre & v & post & e & w2 & w3 & -> & Hpass & Hfail)].
      * left. exists w2. econstructor; eauto.
      * right. exists (validator :: pre), v, post, e, w2, w3.
        split; [reflexivity|]. split; [econstructor; eauto|done].
    + right. exists [], validator, rest, e, w, w1.
      split; [done|]. split; [constructor|done].
Qed.

Lemma intercept_all_cons interceptor rest index r w :
  intercept_all (interceptor :: rest) index r w =
  match interceptor r w with
  | (Normal next, w1) =>
      let '(c, w2, t) := intercept_all rest (S index) next w1 in
      (c, w2, Invoke (PInterceptor index r) :: t)
  | (Throw e, w1) =>
      (Normal (leaves interceptor r w, Some e), w1, [Invoke (PInterceptor index r)])
  end.
Proof.
  cbn. unfold mbind, Async_bind, try_catch, emit, world, await, mret, Async_ret.
  destruct (interceptor r w) as [[next|e] w1]; [|reflexivity].
  cbv beta iota zeta.
  destruct (intercept_all rest (S index) next w1) as [[c w2] t]. reflexivity.
Qed.

Lemma intercept_all_pass interceptors index r w inputs r1 w1 :
  interceptors_pass interceptors r w inputs r1 w1 →
  intercept_all interceptors index r w =
    (Normal (r1, None), w1, interceptor_calls index inputs).
Proof.
  intros Hpass. revert index.
  induction Hpass as [r w|f rest r w next w1 inputs r2 w2 Hf _ IH]; intros index;
    [reflexivity|].
  rewrite intercept_all_cons, Hf, IH. reflexivity.
Qed.

Lemma intercept_all_fault pre interceptor post index r w inputs r1 w1 e w2 :
  interceptors_pass pre r w inputs r1 w1 →
  interceptor r1 w1 = (Throw e, w2) →
  intercept_all (pre ++ interceptor :: post) index r w =
    (Normal (leaves interceptor r1 w1, Some e), w2,
     interceptor_calls index (inputs ++ [r1])).
Proof.
  intros Hpass Hfault. revert index.
  induction Hpass as [r w|f rest r w next w1 inputs r2 w3 Hf _ IH]; intros index;
    simpl app.
  - rewrite intercept_all_cons, Hfault. reflexivity.
  - rewrite intercept_all_cons, Hf, (IH Hfault). reflexivity.
Qed.

(** The interceptors either all complete or there is a first one that
    throws. *)
Lemma interceptors_run interceptors r w :
  (∃ inputs r1 w1, interceptors_pass interceptors r w inputs r1 w1) ∨
  (∃ pre interceptor post inputs r1 w1 e w2,
      interceptors = pre ++ interceptor :: post ∧
      interceptors_pass pre r w inputs r1 w1 ∧
      interceptor r1 w1 = (Throw e, w2)).
Proof.
  revert r w. induction interceptors as [|f rest IH]; intros r w.
  - left. do 3 eexists. constructor.
  - destruct (f r w) as [[next|e] w1] eqn:Hf.
    + destruct (IH next w1)
        as [(inputs & r1 & w2 & Hpass)
           |(pre & g & post & inputs & r1 & w2 & e & w3 & -> & Hpass & Hfault)].
      * left. exists (r :: inputs), r1, w2. econstructor; eauto.
      * right. exists (f :: pre), g, post, (r :: inputs), r1, w2, e, w3.
        split; [reflexivity|]. split; [econstructor; eauto|done].
    + right. exists [], f, rest, [], r, w, e, w1.
      split; [done|]. split; [constructor|done].
Qed.

Lemma interceptors_pass_preserves (P : MCPResponse → Prop) interceptors r w inputs r1 w1 :
  interceptors_pass interceptors r w inputs r1 w1 →
  preserved_by P interceptors → P r → P r1.
Proof.
  induction 1 as [r w|f rest r w next w1 inputs r2 w2 Hf _ IH]; intros Hpres HP; [done|].
  apply IH.
  - intros g r' w' Hin. apply Hpres. by right.
  - eapply (Hpres f r w); [by left|exact HP|exact Hf].
Qed.

Lemma preserved_by_leaves (P : MCPResponse → Prop) interceptors interceptor r w e w1 :
  preserved_by P interceptors → interceptor ∈ interceptors → P r →
  interceptor r w = (Throw e, w1) → P (leaves interceptor r w).
Proof. intros Hpres Hin HP Hf. eapply (Hpres interceptor r w); eauto. Qed.

Lemma preserved_by_prefix (P : MCPResponse → Prop) (pre post : list (Interceptor W)) :
  preserved_by P (pre ++ post) → preserved_by P pre.
Proof.
  intros Hpres f r w Hin. apply Hpres. apply elem_of_app. by left.
Qed.

Lemma interceptors_pass_length interceptors r w inputs r1 w1 :
  interceptors_pass interceptors r w inputs r1 w1 →
  length inputs = length interceptors.
Proof. induction 1; simpl; congruence. Qed.

End Loops.

(** ** Registration *)

Section Registration.

Context {W : Type}.
Implicit Types (this : MessageControlPlane W).

(** Re-registration overwrites: the last handler registered under a key is
    the one found, and the other keys are untouched. *)
Lemma registerMessageHandler_lookup messageType (handler : Handler W) this :
  messageHandlers (registerMessageHandler messageType handler this).1 !! messageType
  = Some handler.
Proof. apply lookup_insert_eq. Qed.

Lemma registerMessageHandler_other messageType key (handler : Handler W) this :
  messageType ≠ key →
  messageHandlers (registerMessageHandler messageType handler this).1 !! key
  = messageHandlers this !! key.
Proof. intros Hne. by apply lookup_insert_ne. Qed.

(** The chains are append-only: registration order is list order. *)
Lemma addRequestValidator_appends (validators : list (Validator W)) this :
  requestValidators
    (foldl (λ plane validator, (addRequestValidator validator plane).1) this validators)
  = requestValidators this ++ validators.
Proof.
  revert this. induction validators as [|validator rest IH]; intros this; simpl.
  - by rewrite app_nil_r.
  - rewrite IH. simpl. by rewrite <- app_assoc.
Qed.

Lemma addResponseInterceptor_appends (interceptors : list (Interceptor W)) this :
  responseInterceptors
    (foldl (λ plane interceptor, (addResponseInterceptor interceptor plane).1)
       this interceptors)
  = responseInterceptors this ++ interceptors.
Proof.
  revert this. induction interceptors as [|interceptor rest IH]; intros this; simpl.
  - by rewrite app_nil_r.
  - rewrite IH. simpl. by rewrite <- app_assoc.
Qed.

End Registration.

(** ** The paths through processRequest *)

Ltac unfold_async :=
  unfold mbind, Async_bind, try_catch, emit, eval, await, mret, Async_ret;
  cbv beta iota zeta.

Section Paths.

Context {W : Type}.
Implicit Types (w : W) (request : MCPRequest) (this : MessageControlPlane W).
Implicit Types (validator : Validator W) (handler : Handler W).
Implicit Types (interceptor : Interceptor W) (r : MCPResponse).

Lemma buildResponse_run env request processedMessage w :
  ∃ line,
    buildResponse env request processedMessage w =
      (Normal (producedResponse env request processedMessage), w, [console_log line]).
Proof. destruct processedMessage; eexists; reflexivity. Qed.

Lemma runInterceptors_pass this request r w inputs r1 w1 :
  interceptors_pass (responseInterceptors this) r w inputs r1 w1 →
  runInterceptors this request r w =
    (Normal r1, w1,
     interceptor_calls 0 inputs
     ++ [console_log ("MCP_TS: Interceptores de respuesta ejecutados para mensaje ID: "
                      +:+ id (message request))]).
Proof.
  intros Hpass. unfold runInterceptors. unfold_async.
  rewrite (intercept_all_pass _ 0 _ _ _ _ _ Hpass). reflexivity.
Qed.

Lemma runInterceptors_fault this request pre interceptor post r w inputs r1 w1 e w2 :
  responseInterceptors this = pre ++ interceptor :: post →
  interceptors_pass pre r w inputs r1 w1 →
  interceptor r1 w1 = (Throw e, w2) →
  runInterceptors this request r w =
    (Normal (leaves interceptor r1 w1), w2,
     interceptor_calls 0 (inputs ++ [r1])
     ++ [console_error ("MCP_TS: Error en interceptor de respuesta para mensaje ID: "
                        +:+ id (message request)) [e]]).
Proof.
  intros Hfs Hpass Hfault. unfold runInterceptors. rewrite Hfs. unfold_async.
  rewrite (intercept_all_fault _ _ _ 0 _ _ _ _ _ _ _ Hpass Hfault). reflexivity.
Qed.

Lemma processRequest_validation_fails this env request pre validator post e w w1 w2 :
  requestValidators this = pre ++ validator :: post →
  validators_pass request pre w w1 →
  validator request w1 = (Throw e, w2) →
  processRequest this env request w =
    (match Js.get_message e with
     | Normal msg =>
         Normal (buildErrorResponse env (id (message request)) "VALIDATION_ERROR"
                   (Js.or msg (JStr "Error de validación desconocido.")))
     | Throw fault => Throw fault
     end,
     w2,
     console_log ("MCP_TS: Procesando solicitud para mensaje ID: " +:+ id (message request))
     :: validator_calls request 0 (S (length pre))
     ++ [console_error ("MCP_TS: Error de validación para mensaje ID: "
                        +:+ id (message request)) [e]]).
Proof.
  intros Hvs Hpass Hfail.
  unfold processRequest. rewrite Hvs. unfold_async.
  rewrite (validate_all_fail _ _ _ _ _ _ _ _ _ Hpass Hfail).
  destruct (Js.get_message e); cbv beta iota zeta; rewrite ?app_nil_r; reflexivity.
Qed.

(** No handler: the outcome hangs on the template literal that builds the
    error message, which is evaluated outside every [try]. *)
Lemma processRequest_no_handler this env request w w1 :
  validators_pass request (requestValidators this) w w1 →
  Map_get (messageHandlers this) (messageTypeOf request) = None →
  processRequest this env request w =
    (match Js.ToString (messageTypeOf request) with
     | Normal text =>
         Normal (buildErrorResponse env (id (message request)) "HANDLER_NOT_FOUND"
                   (JStr ("No se encontró un manejador para el tipo de mensaje '"
                          +:+ text
                          +:+ "' (ID: " +:+ id (message request) +:+ ").")))
     | Throw fault => Throw fault
     end,
     w1,
     console_log ("MCP_TS: Procesando solicitud para mensaje ID: " +:+ id (message request))
     :: validator_calls request 0 (length (requestValidators this))
     ++ console_log ("MCP_TS: Solicitud validada para mensaje ID: "
                     +:+ id (message request))
     :: match Js.ToString (messageTypeOf request) with
        | Normal text =>
            [console_error ("MCP_TS: "
                            +:+ "No se encontró un manejador para el tipo de mensaje '"
                            +:+ text
                            +:+ "' (ID: " +:+ id (message request) +:+ ").") []]
        | Throw _ => []
        end).
Proof.
  intros Hpass Hget.
  unfold processRequest. unfold_async.
  rewrite (validate_all_pass _ _ 0 _ _ Hpass). rewrite Hget. unfold_async.
  destruct (Js.ToString (messageTypeOf request)); cbv beta iota zeta;
    rewrite ?app_nil_r, <- ?app_assoc; reflexivity.
Qed.

(** No handler, and the type can be printed. *)
Lemma processRequest_not_found this env request text w w1 :
  validators_pass request (requestValidators this) w w1 →
  Map_get (messageHandlers this) (messageTypeOf request) = None →
  Js.ToString (messageTypeOf request) = Normal text →
  processRequest this env request w =
    (Normal (buildErrorResponse env (id (message request)) "HANDLER_NOT_FOUND"
               (JStr ("No se encontró un manejador para el tipo de mensaje '"
                      +:+ text
                      +:+ "' (ID: " +:+ id (message request) +:+ ")."))),
     w1,
     console_log ("MCP_TS: Procesando solicitud para mensaje ID: " +:+ id (message request))
     :: validator_calls request 0 (length (requestValidators this))
     ++ [console_log ("MCP_TS: Solicitud validada para mensaje ID: "
                      +:+ id (message request));
         console_error ("MCP_TS: "
                        +:+ "No se encontró un manejador para el tipo de mensaje '"
                        +:+ text
                        +:+ "' (ID: " +:+ id (message request) +:+ ").") []]).
Proof.
  intros Hpass Hget Htext.
  unfold processRequest. unfold_async.
  rewrite (validate_all_pass _ _ 0 _ _ Hpass). rewrite Hget. unfold_async.
  rewrite Htext. cbv beta iota zeta.
  rewrite ?app_nil_r, <- ?app_assoc. reflexivity.
Qed.

(** No handler, and the type cannot be printed: the template literal that
    builds the error message throws, outside every [try]. *)
Lemma processRequest_unprintable this env request fault w w1 :
  validators_pass request (requestValidators this) w w1 →
  Map_get (messageHandlers this) (messageTypeOf request) = None →
  Js.ToString (messageTypeOf request) = Throw fault →
  processRequest this env request w =
    (Throw fault,
     w1,
     console_log ("MCP_TS: Procesando solicitud para mensaje ID: " +:+ id (message request))
     :: validator_calls request 0 (length (requestValidators this))
     ++ [console_log ("MCP_TS: Solicitud validada para mensaje ID: "
                      +:+ id (message request))]).
Proof.
  intros Hpass Hget Htext.
  unfold processRequest. unfold_async.
  rewrite (validate_all_pass _ _ 0 _ _ Hpass). rewrite Hget. unfold_async.
  rewrite Htext. cbv beta iota zeta.
  rewrite ?app_nil_r, <- ?app_assoc. reflexivity.
Qed.

Lemma Map_get_Some this key handler :
  Map_get (messageHandlers this) key = Some handler →
  ∃ s, key = JStr s ∧ messageHandlers this !! s = Some handler.
Proof. destruct key; simpl; intros H; try discriminate. eauto. Qed.

(** A key under which a handler is found is a string, which prints as
    itself. *)
Lemma ToString_key this key handler :
  Map_get (messageHandlers this) key = Some handler →
  Js.ToString key = Normal (Js.toString key).
Proof. intros H. by destruct (Map_get_Some _ _ _ H) as (s & -> & _). Qed.

Lemma processRequest_handler_throws this env request handler e w w1 w2 :
  validators_pass request (requestValidators this) w w1 →
  Map_get (messageHandlers this) (messageTypeOf request) = Some handler →
  handler (message request) w1 = (Throw e, w2) →
  processRequest this env request w =
    (match Js.get_message e with
     | Normal msg =>
         Normal (buildErrorResponse env (id (message request)) "HANDLER_ERROR"
                   (Js.or msg (JStr "Error desconocido en el manejador.")))
     | Throw fault => Throw fault
     end,
     w2,
     console_log ("MCP_TS: Procesando solicitud para mensaje ID: " +:+ id (message request))
     :: validator_calls request 0 (length (requestValidators this))
     ++ [console_log ("MCP_TS: Solicitud validada para mensaje ID: "
                      +:+ id (message request));
         console_log ("MCP_TS: Ejecutando manejador '"
                      +:+ Js.toString (messageTypeOf request)
                      +:+ "' para mensaje ID: " +:+ id (message request));
         Invoke (PHandler (Js.toString (messageTypeOf request)) (message request));
         console_error ("MCP_TS: Error en el manejador '"
                        +:+ Js.toString (messageTypeOf request)
                        +:+ "' para mensaje ID: " +:+ id (message request)) [e]]).
Proof.
  intros Hpass Hget Hthrow.
  unfold processRequest. unfold_async.
  rewrite (validate_all_pass _ _ 0 _ _ Hpass). rewrite Hget. unfold_async.
  rewrite (ToString_key _ _ _ Hget). cbv beta iota zeta.
  rewrite Hthrow.
  destruct (Js.get_message e); cbv beta iota zeta;
    rewrite ?app_nil_r, <- ?app_assoc; reflexivity.
Qed.

Lemma processRequest_handled this env request handler processedMessage w w1 w2 :
  validators_pass request (requestValidators this) w w1 →
  Map_get (messageHandlers this) (messageTypeOf request) = Some handler →
  handler (message request) w1 = (Normal processedMessage, w2) →
  ∃ line,
  processRequest this env request w =
    let '(c, w3, t) :=
      runInterceptors this request (producedResponse env request processedMessage) w2 in
    (c, w3,
     (console_log ("MCP_TS: Procesando solicitud para mensaje ID: " +:+ id (message request))
      :: validator_calls request 0 (length (requestValidators this))
      ++ [console_log ("MCP_TS: Solicitud validada para mensaje ID: "
                       +:+ id (message request));
          console_log ("MCP_TS: Ejecutando manejador '"
                       +:+ Js.toString (messageTypeOf request)
                       +:+ "' para mensaje ID: " +:+ id (message request));
          Invoke (PHandler (Js.toString (messageTypeOf request)) (message request));
          console_log line])
     ++ t).
Proof.
  intros Hpass Hget Hdone.
  destruct (buildResponse_run env request processedMessage w2) as [line Hbuild].
  exists line.
  unfold processRequest. unfold_async.
  rewrite (validate_all_pass _ _ 0 _ _ Hpass). rewrite Hget. unfold_async.
  rewrite (ToString_key _ _ _ Hget). cbv beta iota zeta.
  rewrite Hdone. cbv beta iota zeta. rewrite Hbuild.
  destruct (runInterceptors this request _ w2) as [[c w3] t].
  rewrite ?app_nil_r, <- ?app_assoc. simpl. rewrite <- ?app_assoc. reflexivity.
Qed.

End Paths.

(** ** Plug-in calls in a trace *)

Section Traces.

Lemma validator_calls_invocations request index n :
  invocations (validator_calls request index n) = validator_calls request index n.
Proof.
  unfold validator_calls. revert index.
  induction n as [|n IH]; intros index; [reflexivity|].
  simpl. unfold invocations in IH. by rewrite IH.
Qed.

Lemma validator_calls_all request index n :
  List.filter is_invoke (validator_calls request index n)
  = validator_calls request index n.
Proof. apply validator_calls_invocations. Qed.

Lemma interceptor_calls_all' index inputs :
  List.filter is_invoke (interceptor_calls index inputs)
  = interceptor_calls index inputs.
Proof.
  revert index. induction inputs as [|r rest IH]; intros index; [reflexivity|].
  simpl. by rewrite IH.
Qed.

Lemma validator_calls_not_handler request index n :
  List.filter is_handler_call (validator_calls request index n) = [].
Proof.
  unfold validator_calls. revert index.
  induction n as [|n IH]; intros index; [reflexivity|]. simpl. apply IH.
Qed.

Lemma validator_calls_not_interceptor request index n :
  List.filter is_interceptor_call (validator_calls request index n) = [].
Proof.
  unfold validator_calls. revert index.
  induction n as [|n IH]; intros index; [reflexivity|]. simpl. apply IH.
Qed.

Lemma interceptor_calls_invocations index inputs :
  invocations (interceptor_calls index inputs) = interceptor_calls index inputs.
Proof.
  revert index. induction inputs as [|r rest IH]; intros index; [reflexivity|].
  simpl. unfold invocations in IH. by rewrite IH.
Qed.

Lemma interceptor_calls_not_handler index inputs :
  List.filter is_handler_call (interceptor_calls index inputs) = [].
Proof.
  revert index. induction inputs as [|r rest IH]; intros index; [reflexivity|].
  simpl. apply IH.
Qed.

Lemma interceptor_calls_all index inputs :
  List.filter is_interceptor_call (interceptor_calls index inputs)
  = interceptor_calls index inputs.
Proof.
  revert index. induction inputs as [|r rest IH]; intros index; [reflexivity|].
  simpl. by rewrite IH.
Qed.


End Traces.

#[local] Opaque validator_calls interceptor_calls.

Create Rewrite HintDb trace.
#[local] Hint Rewrite @List.filter_app validator_calls_invocations
  validator_calls_not_handler validator_calls_not_interceptor
  validator_calls_all interceptor_calls_all'
  interceptor_calls_invocations interceptor_calls_not_handler
  interceptor_calls_all @app_nil_r @app_nil_l : trace.

Ltac trace :=
  unfold invocations; repeat (progress (simpl; autorewrite with trace));
  try reflexivity.

Section Results.
Context {W : Type}.
Implicit Types (w : W) (request : MCPRequest) (this : MessageControlPlane W).
Implicit Types (validator : Validator W) (handler : Handler W).
Implicit Types (interceptor : Interceptor W) (r : MCPResponse).

Lemma get_message_not_nullish e :
  Js.nullish e = false → ∃ msg, Js.get_message e = Normal msg.
Proof. destruct e; simpl; intros H; try discriminate; eauto. Qed.

Lemma get_message_nullish e :
  Js.nullish e = true → ∃ fault, Js.get_message e = Throw fault.
Proof. destruct e; simpl; intros H; try discriminate; eauto. Qed.

(** Whatever the interceptors do, the chain hands back a response; it is
    the response it started from when no interceptor is registered, and it
    has every property of that response that the interceptors preserve. *)
Lemma runInterceptors_returns this request r w :
  ∃ r1 w1 t,
    runInterceptors this request r w = (Normal r1, w1, t) ∧
    List.filter is_handler_call t = [] ∧
    (responseInterceptors this = [] → r1 = r) ∧
    (∀ P : MCPResponse → Prop,
        P r → preserved_by P (responseInterceptors this) → P r1).
Proof.
  destruct (interceptors_run (responseInterceptors this) r w)
    as [(inputs & r1 & w1 & Hpass)
       |(pre & f & post & inputs & r1 & w1 & e & w2 & Hfs & Hpass & Hfault)].
  - do 3 eexists. split; [exact (runInterceptors_pass _ request _ _ _ _ _ Hpass)|].
    split; [trace|]. split.
    + intros Hnil. rewrite Hnil in Hpass. by inversion Hpass.
    + intros P HP Hpres. eapply interceptors_pass_preserves; eauto.
  - do 3 eexists.
    split; [exact (runInterceptors_fault _ request _ _ _ _ _ _ _ _ _ _ Hfs Hpass Hfault)|].
    split; [trace|]. split.
    + intros Hnil. rewrite Hnil in Hfs. by destruct pre.
    + intros P HP Hpres.
      refine (preserved_by_leaves P _ f r1 w1 e w2 Hpres _ _ Hfault).
      * rewrite Hfs. apply elem_of_app. right. by left.
      * eapply interceptors_pass_preserves; eauto.
        eapply preserved_by_prefix. rewrite <- Hfs. exact Hpres.
Qed.

(** The success path: the handler found under the resolved key is the only
    handler called, and the response is the one of step 3 as the
    interceptor chain hands it back. *)
Lemma processRequest_success_path this env request handler processedMessage w w1 w2 :
  validators_pass request (requestValidators this) w w1 →
  Map_get (messageHandlers this) (messageTypeOf request) = Some handler →
  handler (message request) w1 = (Normal processedMessage, w2) →
  ∃ response w3 t,
    processRequest this env request w = (Normal response, w3, t) ∧
    List.filter is_handler_call t
      = [Invoke (PHandler (Js.toString (messageTypeOf request)) (message request))] ∧
    (responseInterceptors this = [] →
       response = producedResponse env request processedMessage) ∧
    (∀ P : MCPResponse → Prop,
        P (producedResponse env request processedMessage) →
        preserved_by P (responseInterceptors this) → P response).
Proof.
  intros Hpass Hget Hdone.
  destruct (processRequest_handled _ env _ _ _ _ _ _ Hpass Hget Hdone) as [line Hrun].
  destruct (runInterceptors_returns this request
              (producedResponse env request processedMessage) w2)
    as (response & w3 & t & Hchain & Hcalls & Hnone & Hpres).
  rewrite Hchain in Hrun.
  exists response, w3. eexists. split; [exact Hrun|].
  split; [|split; assumption].
  trace. rewrite Hcalls. reflexivity.
Qed.

Lemma compose_from (fs : list (Interceptor W)) (acc : Interception W) r w :
  fold_left (λ composed f, then_interceptor composed (intercept f)) fs acc r w =
  match acc r w with
  | (Normal next, w1) => compose_interceptors fs next w1
  | (Throw e, w1) => (Throw e, w1)
  end.
Proof.
  unfold compose_interceptors. revert acc r w.
  induction fs as [|f rest IH]; intros acc r w; simpl.
  - by destruct (acc r w) as [[next|e] w1].
  - rewrite IH. unfold then_interceptor at 1.
    destruct (acc r w) as [[next|e] w1]; [|reflexivity].
    rewrite (IH (then_interceptor _ f)). unfold then_interceptor. reflexivity.
Qed.

Lemma compose_interceptors_cons interceptor (rest : list (Interceptor W)) r w :
  compose_interceptors (interceptor :: rest) r w =
  match interceptor r w with
  | (Normal next, w1) => compose_interceptors rest next w1
  | (Throw e, w1) => (Throw e, w1)
  end.
Proof.
  unfold compose_interceptors at 1. simpl. rewrite compose_from.
  unfold then_interceptor. reflexivity.
Qed.

Lemma interceptors_pass_compose interceptors r w inputs r1 w1 :
  interceptors_pass interceptors r w inputs r1 w1 →
  compose_interceptors interceptors r w = (Normal r1, w1).
Proof.
  induction 1 as [r w|f rest r w next w1 inputs r2 w2 Hf _ IH]; [reflexivity|].
  rewrite compose_interceptors_cons, Hf. exact IH.
Qed.

(** When each interceptor computes a function on responses, the chain is
    the left fold of these functions, and the interceptor at position [k]
    is called on the fold of the first [k] of them. *)
Lemma interceptors_pass_fold interceptors r w inputs r1 w1
    (gs : list (MCPResponse → MCPResponse)) :
  interceptors_pass interceptors r w inputs r1 w1 →
  Forall2 computes interceptors gs →
  r1 = fold_left (λ acc g, g acc) gs r ∧
  inputs = (λ k, fold_left (λ acc g, g acc) (take k gs) r) <$> seq 0 (length gs).
Proof.
  intros Hpass. revert gs.
  induction Hpass as [r w|f rest r w next w1 inputs r2 w2 Hf _ IH]; intros gs Hgs.
  - apply Forall2_nil_inv_l in Hgs as ->. done.
  - apply Forall2_cons_inv_l in Hgs as (g & gs' & Hg & Hgs & ->).
    destruct (Hg r w) as [w' Hgr]. rewrite Hf in Hgr.
    assert (next = g r) as -> by congruence.
    destruct (IH gs' Hgs) as [-> ->]. split; [reflexivity|].
    simpl. f_equal. rewrite <- fmap_S_seq, <- list_fmap_compose. reflexivity.
Qed.

(** Validation is fail-fast: the validators before the first failing one
    and that one are called, in registration order, and nothing else is;
    the outcome is the VALIDATION_ERROR response when the thrown value has
    properties, and the TypeError of [error.message] when it is null or
    undefined. *)
Theorem validation_fail_fast this env request pre validator post e w w1 w2 :
  requestValidators this = pre ++ validator :: post →
  validators_pass request pre w w1 →
  validator request w1 = (Throw e, w2) →
  ∃ t,
    processRequest this env request w =
      (match Js.get_message e with
       | Normal msg =>
           Normal (buildErrorResponse env (id (message request)) "VALIDATION_ERROR"
                     (Js.or msg (JStr "Error de validación desconocido.")))
       | Throw fault => Throw fault
       end, w2, t) ∧
    invocations t = validator_calls request 0 (S (length pre)) ∧
    List.filter is_handler_call t = [] ∧
    List.filter is_interceptor_call t = [].
Proof.
  intros Hvs Hpass Hfail. eexists.
  split; [exact (processRequest_validation_fails _ env _ _ _ _ _ _ _ _ Hvs Hpass Hfail)|].
  repeat split; trace.
Qed.

(** For every thrown value other than null and undefined, a failing
    validator yields the VALIDATION_ERROR response. *)
Corollary validation_error_response this env request pre validator post e w w1 w2 :
  requestValidators this = pre ++ validator :: post →
  validators_pass request pre w w1 →
  validator request w1 = (Throw e, w2) →
  Js.nullish e = false →
  ∃ response t,
    processRequest this env request w = (Normal response, w2, t) ∧
    success response = false ∧
    code <$> error response = Some "VALIDATION_ERROR" ∧
    invocations t = validator_calls request 0 (S (length pre)) ∧
    List.filter is_handler_call t = [] ∧
    List.filter is_interceptor_call t = [].
Proof.
  intros Hvs Hpass Hfail Hnull.
  destruct (get_message_not_nullish e Hnull) as [msg Hmsg].
  destruct (validation_fail_fast _ env _ _ _ _ _ _ _ _ Hvs Hpass Hfail)
    as (t & Hrun & Hcalls).
  rewrite Hmsg in Hrun. by do 2 eexists.
Qed.

(** The same unguarded [error.message] in the catch block of the handler. *)
Lemma handler_rejecting_nullish_escapes this env request handler e w w1 w2 :
  validators_pass request (requestValidators this) w w1 →
  Map_get (messageHandlers this) (messageTypeOf request) = Some handler →
  handler (message request) w1 = (Throw e, w2) →
  Js.nullish e = true →
  ∃ fault t, processRequest this env request w = (Throw fault, w2, t).
Proof.
  intros Hpass Hget Hthrow Hnull.
  destruct (get_message_nullish e Hnull) as [fault Hfault].
  do 2 eexists.
  rewrite (processRequest_handler_throws _ env _ _ _ _ _ _ Hpass Hget Hthrow), Hfault.
  reflexivity.
Qed.

(** X2.  A fault escapes processRequest in these three situations only:
    the first failing validator threw null or undefined; the handler threw
    null or undefined; or the request passed validation, no handler is
    registered for its type, and the type cannot be printed.  In the first
    two the fault is the TypeError of [error.message], in the third the
    TypeError of the template literal that builds the error message. *)
Theorem fault_origin this env request fault w w2 t :
  processRequest this env request w = (Throw fault, w2, t) →
  (∃ e, Js.nullish e = true ∧ Js.get_message e = Throw fault ∧
     ((∃ pre validator post w1,
         requestValidators this = pre ++ validator :: post ∧
         validators_pass request pre w w1 ∧
         validator request w1 = (Throw e, w2))
      ∨
      (∃ handler w1,
         validators_pass request (requestValidators this) w w1 ∧
         Map_get (messageHandlers this) (messageTypeOf request) = Some handler ∧
         handler (message request) w1 = (Throw e, w2))))
  ∨
  (validators_pass request (requestValidators this) w w2 ∧
   Map_get (messageHandlers this) (messageTypeOf request) = None ∧
   Js.ToString (messageTypeOf request) = Throw fault ∧
   invocations t = validator_calls request 0 (length (requestValidators this))).
Proof.
  intros Hrun.
  destruct (validators_run request (requestValidators this) w)
    as [[w1 Hpass]|(pre & v & post & e & w1 & w3 & Hvs & Hpass & Hfail)].
  - destruct (Map_get (messageHandlers this) (messageTypeOf request))
      as [handler|] eqn:Hget.
    + destruct (handler (message request) w1) as [[processedMessage|e] w3] eqn:Hcall.
      * destruct (processRequest_success_path _ env _ _ _ _ _ _ Hpass Hget Hcall)
          as (response & w4 & t' & Hres & _).
        congruence.
      * rewrite (processRequest_handler_throws _ env _ _ _ _ _ _ Hpass Hget Hcall) in Hrun.
        destruct (Js.nullish e) eqn:Hnull.
        -- left. exists e.
           destruct (Js.get_message e) as [msg|fault'] eqn:Hmsg; [discriminate|].
           injection Hrun as -> -> _.
           split; [exact Hnull|]. split; [reflexivity|]. right. by exists handler, w1.
        -- destruct (get_message_not_nullish e Hnull) as [msg Hmsg].
           rewrite Hmsg in Hrun. discriminate.
    + destruct (Js.ToString (messageTypeOf request)) as [text|fault'] eqn:Htext.
      * rewrite (processRequest_not_found _ env _ _ _ _ Hpass Hget Htext) in Hrun.
        discriminate.
      * rewrite (processRequest_unprintable _ env _ _ _ _ Hpass Hget Htext) in Hrun.
        injection Hrun as -> -> <-. right.
        split; [exact Hpass|]. split; [reflexivity|]. split; [reflexivity|]. trace.
  - rewrite (processRequest_validation_fails _ env _ _ _ _ _ _ _ _ Hvs Hpass Hfail) in Hrun.
    destruct (Js.nullish e) eqn:Hnull.
    + left. exists e.
      destruct (Js.get_message e) as [msg|fault'] eqn:Hmsg; [discriminate|].
      injection Hrun as -> -> _.
      split; [exact Hnull|]. split; [reflexivity|]. left. by exists pre, v, post, w1.
    + destruct (get_message_not_nullish e Hnull) as [msg Hmsg].
      rewrite Hmsg in Hrun. discriminate.
Qed.

End Results.

(** ** The properties of the specification *)

Section Claims.

Context {W : Type}.
Implicit Types (w : W) (request : MCPRequest) (this : MessageControlPlane W).
Implicit Types (validator : Validator W) (handler : Handler W).
Implicit Types (interceptor : Interceptor W) (r : MCPResponse).

Lemma buildErrorResponse_consistent env originalMessageId errorCode errorMessage :
  consistent (buildErrorResponse env originalMessageId errorCode errorMessage).
Proof. split; [by eexists|done]. Qed.



(** C2.  When the first failing validator rejects with null or undefined,
    the catch block of step 1 throws while reading [error.message]: the
    promise of processRequest is rejected and no Response is returned. *)
Theorem validator_rejecting_nullish_escapes this env request pre validator post e w w1 w2 :
  requestValidators this = pre ++ validator :: post →
  validators_pass request pre w w1 →
  validator request w1 = (Throw e, w2) →
  Js.nullish e = true →
  ∃ fault t,
    processRequest this env request w = (Throw fault, w2, t) ∧
    Js.get_message e = Throw fault ∧
    invocations t = validator_calls request 0 (S (length pre)).
Proof.
  intros Hvs Hpass Hfail Hnull.
  destruct (get_message_nullish e Hnull) as [fault Hfault].
  destruct (validation_fail_fast _ env _ _ _ _ _ _ _ _ Hvs Hpass Hfail)
    as (t & Hrun & Hcalls & _).
  rewrite Hfault in Hrun. eauto.
Qed.


(** C4, as amended.  When the resolved handler completes with null, step 3
    builds a Response with success true whose message is the synthesized
    system message described by the claim; processRequest returns that
    Response as the interceptor chain hands it back: unchanged when no
    interceptor is registered, and with every property of it that the
    interceptors preserve. *)
Theorem no_reply_response this env request handler w w1 w2 :
  validators_pass request (requestValidators this) w w1 →
  Map_get (messageHandlers this) (messageTypeOf request) = Some handler →
  handler (message request) w1 = (Normal None, w2) →
  let produced := successResponse request (noResponseSystemMessage env request) in
  (success produced = true ∧
   error produced = None ∧
   originalMessageId produced = id (message request) ∧
   source (responseMessage produced) = "mcp_system" ∧
   conversationId (responseMessage produced) = conversationId (message request) ∧
   content (responseMessage produced)
     = JStr ("El mensaje " +:+ id (message request)
             +:+ " fue procesado pero no generó una respuesta directa.") ∧
   (∃ fields,
      metadata (responseMessage produced) = Some fields ∧
      fields !! "originalMessageId" = Some (JStr (id (message request))) ∧
      fields !! "status" = Some (JStr "PROCESSED_NO_REPLY"))) ∧
  ∃ response w3 t,
    processRequest this env request w = (Normal response, w3, t) ∧
    (responseInterceptors this = [] → response = produced) ∧
    (∀ P : MCPResponse → Prop,
        P produced → preserved_by P (responseInterceptors this) → P response).
Proof.
  intros Hpass Hget Hdone produced. split.
  - repeat split. eexists. split; [reflexivity|]. split; reflexivity.
  - destruct (processRequest_success_path _ env _ _ _ _ _ _ Hpass Hget Hdone)
      as (response & w3 & t & Hrun & _ & Hnone & Hpres).
    by exists response, w3, t.
Qed.

(** C5, as amended.  When the resolved handler throws a value whose
    [message] property can be read, processRequest returns the
    HANDLER_ERROR Response with success false; error.message is that
    property when it is truthy and the text
    "Error desconocido en el manejador." otherwise; no interceptor is
    called. *)
Theorem handler_error_response this env request handler e msg w w1 w2 :
  validators_pass request (requestValidators this) w w1 →
  Map_get (messageHandlers this) (messageTypeOf request) = Some handler →
  handler (message request) w1 = (Throw e, w2) →
  Js.get_message e = Normal msg →
  ∃ response t,
    processRequest this env request w = (Normal response, w2, t) ∧
    response = buildErrorResponse env (id (message request)) "HANDLER_ERROR"
                 (Js.or msg (JStr "Error desconocido en el manejador.")) ∧
    success response = false ∧
    code <$> error response = Some "HANDLER_ERROR" ∧
    (Js.truthy msg = true → error_message <$> error response = Some msg) ∧
    (Js.truthy msg = false →
       error_message <$> error response
         = Some (JStr "Error desconocido en el manejador.")) ∧
    List.filter is_interceptor_call t = [].
Proof.
  intros Hpass Hget Hthrow Hmsg.
  do 2 eexists.
  split; [rewrite (processRequest_handler_throws _ env _ _ _ _ _ _ Hpass Hget Hthrow),
            Hmsg; reflexivity|].
  split; [reflexivity|]. split; [reflexivity|]. split; [reflexivity|].
  split; [|split].
  - intros Ht. simpl. unfold Js.or. by rewrite Ht.
  - intros Ht. simpl. unfold Js.or. by rewrite Ht.
  - trace.
Qed.


Lemma messageTypeOf_untyped request :
  (metadata (message request) = None ∨
   ∃ fields, metadata (message request) = Some fields ∧ fields !! "type" = None) →
  messageTypeOf request = JStr "default".
Proof.
  unfold messageTypeOf. intros [->|(fields & -> & Hnone)]; simpl; [done|].
  by rewrite Hnone.
Qed.


(** The registry is consulted at one key only. *)
Lemma processRequest_ext this this' env request :
  requestValidators this = requestValidators this' →
  responseInterceptors this = responseInterceptors this' →
  Map_get (messageHandlers this) (messageTypeOf request)
    = Map_get (messageHandlers this') (messageTypeOf request) →
  processRequest this env request = processRequest this' env request.
Proof.
  intros Hvs Hfs Hget. unfold processRequest, runInterceptors.
  rewrite Hvs, Hfs, Hget. reflexivity.
Qed.

(** C7, as amended.  A message without metadata, or whose metadata has no
    "type" entry, resolves to the key "default".  When a handler is
    registered under "default" and validation passes, the message is
    dispatched to that handler and to no other; whenever that handler
    completes, a Response with success true is produced, and processRequest
    returns it as the interceptor chain hands it back. *)
Theorem untyped_message_uses_default request :
  (metadata (message request) = None ∨
   ∃ fields, metadata (message request) = Some fields ∧ fields !! "type" = None) →
  messageTypeOf request = JStr "default" ∧
  ∀ (this : MessageControlPlane W) env handler processedMessage w w1 w2,
    validators_pass request (requestValidators this) w w1 →
    messageHandlers this !! "default" = Some handler →
    handler (message request) w1 = (Normal processedMessage, w2) →
    let produced := producedResponse env request processedMessage in
    success produced = true ∧ error produced = None ∧
    ∃ response w3 t,
      processRequest this env request w = (Normal response, w3, t) ∧
      List.filter is_handler_call t = [Invoke (PHandler "default" (message request))] ∧
      (responseInterceptors this = [] → response = produced) ∧
      (∀ P : MCPResponse → Prop,
          P produced → preserved_by P (responseInterceptors this) → P response).
Proof.
  intros Huntyped. pose proof (messageTypeOf_untyped _ Huntyped) as Hkey.
  split; [exact Hkey|].
  intros this env handler processedMessage w w1 w2 Hpass Hdefault Hdone produced.
  split; [reflexivity|]. split; [reflexivity|].
  assert (Map_get (messageHandlers this) (messageTypeOf request) = Some handler) as Hget
    by (by rewrite Hkey).
  destruct (processRequest_success_path _ env _ _ _ _ _ _ Hpass Hget Hdone)
    as (response & w3 & t & Hrun & Hcalls & Hnone & Hpres).
  rewrite Hkey in Hcalls. by exists response, w3, t.
Qed.

(** C8.  On a request for which step 3 produced a Response, if the
    interceptors all complete, each on the output of the one before,
    processRequest returns the last output: the left-to-right composition
    of the interceptors applied to the produced Response.  The
    interceptors are called in registration order, each on the output of
    its predecessor.  When each interceptor computes a function on
    responses, the returned Response is the left fold of these functions
    over the produced Response and the interceptor at position k is called
    on the fold of the first k functions. *)
Theorem interceptors_compose_in_order this env request handler processedMessage
    inputs r1 w w1 w2 w3 :
  validators_pass request (requestValidators this) w w1 →
  Map_get (messageHandlers this) (messageTypeOf request) = Some handler →
  handler (message request) w1 = (Normal processedMessage, w2) →
  interceptors_pass (responseInterceptors this)
    (producedResponse env request processedMessage) w2 inputs r1 w3 →
  let produced := producedResponse env request processedMessage in
  ∃ t,
    processRequest this env request w = (Normal r1, w3, t) ∧
    compose_interceptors (responseInterceptors this) produced w2 = (Normal r1, w3) ∧
    List.filter is_interceptor_call t = interceptor_calls 0 inputs ∧
    length inputs = length (responseInterceptors this) ∧
    ∀ gs : list (MCPResponse → MCPResponse),
      Forall2 computes (responseInterceptors this) gs →
      r1 = fold_left (λ acc g, g acc) gs produced ∧
      inputs = (λ k, fold_left (λ acc g, g acc) (take k gs) produced)
                 <$> seq 0 (length gs).
Proof.
  intros Hpass Hget Hdone Hchain produced.
  destruct (processRequest_handled _ env _ _ _ _ _ _ Hpass Hget Hdone) as [line Hrun].
  rewrite (runInterceptors_pass _ request _ _ _ _ _ Hchain) in Hrun.
  eexists. split; [exact Hrun|].
  split; [exact (interceptors_pass_compose _ _ _ _ _ _ Hchain)|].
  split; [trace|].
  split; [exact (interceptors_pass_length _ _ _ _ _ _ Hchain)|].
  intros gs Hgs. exact (interceptors_pass_fold _ _ _ _ _ _ _ Hchain Hgs).
Qed.

(** C9.  sendMessage(m) is processRequest({message: m}): same completion
    (the same Response, or the same fault), same effect on the plug-in
    world, same events after the one line sendMessage logs. *)
Theorem sendMessage_is_processRequest this env (m : MCPMessage) w :
  sendMessage this env m w =
    let '(c, w1, t) := processRequest this env {| message := m |} w in
    (c, w1,
     console_log ("MCP_TS: sendMessage llamado para mensaje ID: " +:+ id m
                  +:+ " desde " +:+ source m) :: t).
Proof.
  unfold sendMessage. unfold mbind, Async_bind, emit at 1. cbv beta iota zeta.
  destruct (processRequest this env {| message := m |} w) as [[c w1] t].
  reflexivity.
Qed.


End Claims.

(** ** Witnesses and counterexamples on the concrete configurations *)

Section Concrete.

Import Examples.





(** Witness for C2, the failing input: the second validator rejects with
    null; the first validator ran, the third did not, and the TypeError
    of [error.message] escapes. *)
Lemma validator_rejecting_nullish_escapes_witness :
  requestValidators (rejecting_plane JNull)
    = [passing_validator "v1"] ++ rejecting_validator "v2" JNull :: [passing_validator "v3"] ∧
  validators_pass typed_request [passing_validator "v1"] [] ["v1"] ∧
  rejecting_validator "v2" JNull typed_request ["v1"] = (Throw JNull, ["v1"; "v2"]) ∧
  Js.nullish JNull = true ∧
  ∃ t,
    processRequest (rejecting_plane JNull) env0 typed_request []
      = (Throw (Js.TypeError "Cannot read properties of null (reading 'message')"),
         ["v1"; "v2"], t) ∧
    invocations t = [Invoke (PValidator 0 typed_request);
                     Invoke (PValidator 1 typed_request)].
Proof.
  assert (validators_pass typed_request [passing_validator "v1"] [] ["v1"]) as Hpass
    by (repeat econstructor).
  repeat (split; [first [reflexivity | exact Hpass]|]).
  destruct (validator_rejecting_nullish_escapes
              (rejecting_plane JNull) env0 typed_request
              [passing_validator "v1"] (rejecting_validator "v2" JNull)
              [passing_validator "v3"] JNull [] ["v1"] ["v1"; "v2"]
              eq_refl Hpass eq_refl eq_refl)
    as (fault & t & Hrun & Hfault & Hcalls).
  exists t. injection Hfault as <-. split; [exact Hrun|exact Hcalls].
Defined.



(** Counterexample to C4 as stated: the handler returns null, and an
    interceptor answers with a refusal of its own; the Response returned
    has success false and its message does not come from mcp_system. *)
Lemma interceptor_replaces_no_reply_response :
  validators_pass typed_request
    (requestValidators (silent_plane [refusing_interceptor])) [] ["v1"] ∧
  Map_get (messageHandlers (silent_plane [refusing_interceptor]))
    (messageTypeOf typed_request) = Some silent_handler ∧
  silent_handler (message typed_request) ["v1"] = (Normal None, ["v1"; "handler"]) ∧
  ∃ response journal t,
    processRequest (silent_plane [refusing_interceptor]) env0 typed_request []
      = (Normal response, journal, t) ∧
    success response = false ∧
    source (responseMessage response) = "policy" ∧
    source (responseMessage response) ≠ "mcp_system".
Proof.
  split; [repeat econstructor|]. split; [reflexivity|]. split; [reflexivity|].
  do 3 eexists. split; [vm_compute; reflexivity|]. by repeat split.
Qed.

(** Witness for C4: the handler returns null and no interceptor is
    registered; the synthesized Response is returned as built. *)
Lemma no_reply_response_witness :
  validators_pass typed_request (requestValidators (silent_plane [])) [] ["v1"] ∧
  Map_get (messageHandlers (silent_plane [])) (messageTypeOf typed_request)
    = Some silent_handler ∧
  silent_handler (message typed_request) ["v1"] = (Normal None, ["v1"; "handler"]) ∧
  ∃ journal t,
    processRequest (silent_plane []) env0 typed_request []
      = (Normal (successResponse typed_request
                   (noResponseSystemMessage env0 typed_request)), journal, t) ∧
    source (noResponseSystemMessage env0 typed_request) = "mcp_system".
Proof.
  assert (validators_pass typed_request (requestValidators (silent_plane [])) [] ["v1"])
    as Hpass by (repeat econstructor).
  repeat (split; [first [reflexivity | exact Hpass]|]).
  destruct (no_reply_response (silent_plane []) env0 typed_request silent_handler
              [] ["v1"] ["v1"; "handler"] Hpass eq_refl eq_refl)
    as [(_ & _ & _ & Hsource & _) (response & journal & t & Hrun & Hnone & _)].
  exists journal, t. rewrite <- (Hnone eq_refl). split; [exact Hrun|exact Hsource].
Defined.

(** Counterexample to C5 as stated: the handler throws [new Error('')];
    error.message of the Response is the fallback text, not the empty
    message of the handler's error. *)
Lemma empty_handler_error_message_is_replaced :
  validators_pass typed_request
    (requestValidators (failing_handler_plane (Js.Error ""))) [] ["v1"] ∧
  Map_get (messageHandlers (failing_handler_plane (Js.Error "")))
    (messageTypeOf typed_request) = Some (failing_handler (Js.Error "")) ∧
  failing_handler (Js.Error "") (message typed_request) ["v1"]
    = (Throw (Js.Error ""), ["v1"; "handler"]) ∧
  Js.get_message (Js.Error "") = Normal (JStr "") ∧
  ∃ response journal t,
    processRequest (failing_handler_plane (Js.Error "")) env0 typed_request []
      = (Normal response, journal, t) ∧
    error_message <$> error response = Some (JStr "Error desconocido en el manejador.") ∧
    error_message <$> error response ≠ Some (JStr "").
Proof.
  split; [repeat econstructor|]. split; [reflexivity|]. split; [reflexivity|].
  split; [reflexivity|].
  do 3 eexists. split; [vm_compute; reflexivity|]. by split.
Qed.

(** Witness for C5: the handler throws [new Error('Handler failed')]. *)
Lemma handler_error_response_witness :
  validators_pass typed_request
    (requestValidators (failing_handler_plane (Js.Error "Handler failed"))) [] ["v1"] ∧
  Map_get (messageHandlers (failing_handler_plane (Js.Error "Handler failed")))
    (messageTypeOf typed_request) = Some (failing_handler (Js.Error "Handler failed")) ∧
  failing_handler (Js.Error "Handler failed") (message typed_request) ["v1"]
    = (Throw (Js.Error "Handler failed"), ["v1"; "handler"]) ∧
  Js.get_message (Js.Error "Handler failed") = Normal (JStr "Handler failed") ∧
  ∃ response t,
    processRequest (failing_handler_plane (Js.Error "Handler failed")) env0
      typed_request [] = (Normal response, ["v1"; "handler"], t) ∧
    success response = false ∧
    code <$> error response = Some "HANDLER_ERROR" ∧
    error_message <$> error response = Some (JStr "Handler failed") ∧
    List.filter is_interceptor_call t = [].
Proof.
  assert (validators_pass typed_request
            (requestValidators (failing_handler_plane (Js.Error "Handler failed")))
            [] ["v1"]) as Hpass by (repeat econstructor).
  repeat (split; [first [reflexivity | exact Hpass]|]).
  destruct (handler_error_response
              (failing_handler_plane (Js.Error "Handler failed")) env0 typed_request
              (failing_handler (Js.Error "Handler failed")) (Js.Error "Handler failed")
              (JStr "Handler failed") [] ["v1"] ["v1"; "handler"]
              Hpass eq_refl eq_refl eq_refl)
    as (response & t & Hrun & _ & Hsuccess & Hcode & Hmsg & _ & Hcalls).
  exists response, t. repeat split; try assumption. exact (Hmsg eq_refl).
Defined.



(** Counterexample to C7 as stated: only "default" has a handler,
    validation passes and the message has no metadata; the message is
    dispatched to that handler, which throws, so the request is not
    processed successfully. *)
Lemma default_handler_may_fail :
  metadata (message untyped_request) = None ∧
  messageHandlers (default_plane (failing_handler (Js.Error "Handler failed")))
    = {[ "default" := failing_handler (Js.Error "Handler failed") ]} ∧
  validators_pass untyped_request
    (requestValidators (default_plane (failing_handler (Js.Error "Handler failed"))))
    [] ["v1"] ∧
  ∃ response journal t,
    processRequest (default_plane (failing_handler (Js.Error "Handler failed")))
      env0 untyped_request [] = (Normal response, journal, t) ∧
    List.filter is_handler_call t
      = [Invoke (PHandler "default" (message untyped_request))] ∧
    success response = false ∧
    code <$> error response = Some "HANDLER_ERROR".
Proof.
  split; [reflexivity|]. split; [reflexivity|]. split; [repeat econstructor|].
  do 3 eexists. split; [vm_compute; reflexivity|]. by repeat split.
Qed.

(** Witness for C7: the test "should use default handler if message type
    is not in metadata". *)
Lemma untyped_message_uses_default_witness :
  metadata (message untyped_request) = None ∧
  messageTypeOf untyped_request = JStr "default" ∧
  ∃ response journal t,
    processRequest (default_plane replying_handler) env0 untyped_request []
      = (Normal response, journal, t) ∧
    List.filter is_handler_call t
      = [Invoke (PHandler "default" (message untyped_request))] ∧
    success response = true ∧
    content (responseMessage response) = JStr "handled".
Proof.
  split; [reflexivity|].
  destruct (untyped_message_uses_default (W := Journal) untyped_request
              (or_introl eq_refl)) as [Hkey Hdispatch].
  split; [exact Hkey|].
  assert (validators_pass untyped_request
            (requestValidators (default_plane replying_handler)) [] ["v1"]) as Hpass
    by (repeat econstructor).
  destruct (Hdispatch (default_plane replying_handler) env0 replying_handler
              _ [] ["v1"] ["v1"; "handler"] Hpass eq_refl eq_refl)
    as (_ & _ & response & journal & t & Hrun & Hcalls & Hnone & _).
  exists response, journal, t. rewrite (Hnone eq_refl) in *. by repeat split.
Defined.

(** Witness for C8: interceptor A tags the metadata, interceptor B is
    called on the tagged Response and tags it again. *)
Lemma interceptors_compose_in_order_witness :
  validators_pass typed_request (requestValidators two_interceptor_plane) [] [] ∧
  Map_get (messageHandlers two_interceptor_plane) (messageTypeOf typed_request)
    = Some replying_handler ∧
  replying_handler (message typed_request) [] = (Normal (Some typed_reply), ["handler"]) ∧
  Forall2 computes (responseInterceptors two_interceptor_plane)
    [tagging_interceptor "A"; tagging_interceptor "B"] ∧
  ∃ t,
    processRequest two_interceptor_plane env0 typed_request []
      = (Normal (tagging_interceptor "B"
                   (tagging_interceptor "A" (successResponse typed_request typed_reply))),
         ["handler"; "A"; "B"], t) ∧
    List.filter is_interceptor_call t
      = [Invoke (PInterceptor 0 (successResponse typed_request typed_reply));
         Invoke (PInterceptor 1
                   (tagging_interceptor "A" (successResponse typed_request typed_reply)))].
Proof.
  assert (validators_pass typed_request (requestValidators two_interceptor_plane) [] [])
    as Hpass by constructor.
  assert (Forall2 computes (responseInterceptors two_interceptor_plane)
            [tagging_interceptor "A"; tagging_interceptor "B"]) as Hcomputes
    by (repeat constructor; intros r w; eexists; reflexivity).
  assert (interceptors_pass (responseInterceptors two_interceptor_plane)
            (producedResponse env0 typed_request (Some typed_reply)) ["handler"]
            [successResponse typed_request typed_reply;
             tagging_interceptor "A" (successResponse typed_request typed_reply)]
            (tagging_interceptor "B"
               (tagging_interceptor "A" (successResponse typed_request typed_reply)))
            ["handler"; "A"; "B"]) as Hchain
    by (repeat econstructor).
  repeat (split; [first [reflexivity | exact Hpass | exact Hcomputes]|]).
  destruct (interceptors_compose_in_order
              two_interceptor_plane env0 typed_request replying_handler
              (Some typed_reply) _ _ [] [] ["handler"] ["handler"; "A"; "B"]
              Hpass eq_refl eq_refl Hchain)
    as (t & Hrun & _ & Hcalls & _ & _).
  exists t. split; [exact Hrun|exact Hcalls].
Defined.


End Concrete.

(** ** Further properties of the pipeline *)

#[local] Transparent validator_calls.

Lemma validator_calls_last request n :
  last (validator_calls request 0 (S n)) = Some (Invoke (PValidator n request)).
Proof.
  unfold validator_calls. rewrite seq_S, fmap_app. simpl. apply last_snoc.
Qed.

#[local] Opaque validator_calls.

Section Further.

Context {W : Type}.
Implicit Types (w : W) (request : MCPRequest) (this : MessageControlPlane W).
Implicit Types (validator : Validator W) (handler : Handler W).
Implicit Types (interceptor : Interceptor W) (r : MCPResponse).

Lemma interceptors_pass_head interceptors r w inputs r1 w1 :
  interceptors_pass interceptors r w inputs r1 w1 →
  interceptors ≠ [] → head inputs = Some r.
Proof. destruct 1; [done|reflexivity]. Qed.

(** X1.  On a request that passes validation and whose handler completes,
    the plug-ins are called stage by stage: every validator in registration
    order, then the handler, once, then interceptors from the first one on;
    the first interceptor receives the Response of step 3. *)
Theorem plugins_called_in_stage_order this env request handler processedMessage w w1 w2 :
  validators_pass request (requestValidators this) w w1 →
  Map_get (messageHandlers this) (messageTypeOf request) = Some handler →
  handler (message request) w1 = (Normal processedMessage, w2) →
  ∃ response w3 t inputs,
    processRequest this env request w = (Normal response, w3, t) ∧
    invocations t =
      validator_calls request 0 (length (requestValidators this))
      ++ Invoke (PHandler (Js.toString (messageTypeOf request)) (message request))
      :: interceptor_calls 0 inputs ∧
    length inputs ≤ length (responseInterceptors this) ∧
    (responseInterceptors this ≠ [] →
       head inputs = Some (producedResponse env request processedMessage)).
Proof.
  intros Hpass Hget Hdone.
  destruct (processRequest_handled _ env _ _ _ _ _ _ Hpass Hget Hdone) as [line Hrun].
  destruct (interceptors_run (responseInterceptors this)
              (producedResponse env request processedMessage) w2)
    as [(inputs & r1 & w3 & Hchain)
       |(pre & f & post & inputs & r1 & w3 & e & w4 & Hfs & Hchain & Hfault)].
  - rewrite (runInterceptors_pass _ request _ _ _ _ _ Hchain) in Hrun.
    exists r1, w3. eexists. exists inputs. split; [exact Hrun|].
    split; [trace; by rewrite <- ?app_assoc|]. split.
    + by rewrite (interceptors_pass_length _ _ _ _ _ _ Hchain).
    + by apply (interceptors_pass_head _ _ _ _ _ _ Hchain).
  - rewrite (runInterceptors_fault _ request _ _ _ _ _ _ _ _ _ _ Hfs Hchain Hfault) in Hrun.
    exists (leaves f r1 w3), w4. eexists. exists (inputs ++ [r1]). split; [exact Hrun|].
    split; [trace; by rewrite <- ?app_assoc|]. split.
    + rewrite Hfs, !length_app, (interceptors_pass_length _ _ _ _ _ _ Hchain). simpl. lia.
    + intros _. destruct pre as [|g pre].
      * by inversion Hchain.
      * rewrite head_app.
        by rewrite (interceptors_pass_head _ _ _ _ _ _ Hchain).
Qed.

(** X3.  When the first failing validator throws a value whose [message]
    can be read, the VALIDATION_ERROR Response carries that message when it
    is truthy and the text "Error de validación desconocido." otherwise; the
    same value is in the content of the synthetic message, and the Response
    refers to the request by its id. *)
Theorem validation_error_message this env request pre validator post e msg w w1 w2 :
  requestValidators this = pre ++ validator :: post →
  validators_pass request pre w w1 →
  validator request w1 = (Throw e, w2) →
  Js.get_message e = Normal msg →
  ∃ response t reported,
    processRequest this env request w = (Normal response, w2, t) ∧
    error response = Some {| code := "VALIDATION_ERROR"; error_message := reported |} ∧
    content (responseMessage response)
      = JObj {[ "error" := JStr "VALIDATION_ERROR"; "message" := reported ]} ∧
    originalMessageId response = id (message request) ∧
    (Js.truthy msg = true → reported = msg) ∧
    (Js.truthy msg = false → reported = JStr "Error de validación desconocido.").
Proof.
  intros Hvs Hpass Hfail Hmsg. do 3 eexists.
  split; [rewrite (processRequest_validation_fails _ env _ _ _ _ _ _ _ _ Hvs Hpass Hfail),
            Hmsg; reflexivity|].
  split; [reflexivity|]. split; [reflexivity|]. split; [reflexivity|].
  unfold Js.or. split; intros ->; reflexivity.
Qed.

(** X4.  The registry is keyed by strings and looked up without conversion:
    a message whose type is a truthy value that is not a string (the number
    5, true, an object) finds no handler, whatever is registered, also under
    the string it prints as, and no handler is called.  When the type can be
    printed, the Response is HANDLER_NOT_FOUND with a message that quotes
    the type as the template literal prints it; when it cannot, as for an
    object with a property named toString, processRequest returns no
    Response: it is rejected with the TypeError of that template
    literal. *)
Theorem non_string_type_finds_no_handler this env request fields v w w1 :
  metadata (message request) = Some fields →
  fields !! "type" = Some v →
  Js.truthy v = true →
  (∀ s, v ≠ JStr s) →
  validators_pass request (requestValidators this) w w1 →
  Map_get (messageHandlers this) (messageTypeOf request) = None ∧
  ∃ t,
    processRequest this env request w =
      (match Js.ToString v with
       | Normal text =>
           Normal (buildErrorResponse env (id (message request)) "HANDLER_NOT_FOUND"
                     (JStr ("No se encontró un manejador para el tipo de mensaje '"
                            +:+ text +:+ "' (ID: " +:+ id (message request)
                            +:+ ").")))
       | Throw fault => Throw fault
       end, w1, t) ∧
    List.filter is_handler_call t = [].
Proof.
  intros Hmd Htype Htruthy Hnot Hpass.
  assert (messageTypeOf request = v) as Hkey.
  { unfold messageTypeOf, Js.or. rewrite Hmd. simpl. rewrite Htype. simpl.
    by rewrite Htruthy. }
  assert (Map_get (messageHandlers this) (messageTypeOf request) = None) as Hget.
  { rewrite Hkey. destruct v; try reflexivity. by destruct (Hnot s). }
  split; [exact Hget|]. eexists.
  split; [rewrite (processRequest_no_handler _ env _ _ _ Hpass Hget), Hkey; reflexivity|].
  destruct (Js.ToString v); trace.
Qed.

(** X5.  A plane as the constructor leaves it validates nothing, calls no
    plug-in and leaves the plug-in world untouched.  It answers every
    request whose type can be printed with HANDLER_NOT_FOUND, and rejects
    the others with the TypeError of the template literal that builds the
    error message. *)
Theorem new_plane_finds_no_handler env request w :
  ∃ t,
    processRequest (new_MessageControlPlane (W := W)).1 env request w =
      (match Js.ToString (messageTypeOf request) with
       | Normal text =>
           Normal (buildErrorResponse env (id (message request)) "HANDLER_NOT_FOUND"
                     (JStr ("No se encontró un manejador para el tipo de mensaje '"
                            +:+ text +:+ "' (ID: " +:+ id (message request)
                            +:+ ").")))
       | Throw fault => Throw fault
       end, w, t) ∧
    invocations t = [].
Proof.
  assert (validators_pass request
            (requestValidators (new_MessageControlPlane (W := W)).1) w w) as Hpass
    by constructor.
  assert (Map_get (messageHandlers (new_MessageControlPlane (W := W)).1)
            (messageTypeOf request) = None) as Hget.
  { simpl. by destruct (messageTypeOf request). }
  eexists.
  split; [exact (processRequest_no_handler _ env _ _ _ Hpass Hget)|].
  destruct (Js.ToString (messageTypeOf request)); trace.
Qed.

(** X6.  Registering a handler under a key that already has one warns and
    replaces: the plane is the one obtained by registering the new handler
    alone, so every later request is processed alike and the old handler is
    gone; registering under a free key does not warn. *)
Theorem reregistration_replaces_handler this messageType (old new : Handler W) :
  let once := registerMessageHandler messageType old this in
  let twice := registerMessageHandler messageType new once.1 in
  twice.1 = (registerMessageHandler messageType new this).1 ∧
  messageHandlers twice.1 !! messageType = Some new ∧
  twice.2 =
    [console_warn ("MCP_TS: Ya existe un manejador para el tipo de mensaje '"
                   +:+ messageType +:+ "'. Será sobrescrito.");
     console_log ("MCP_TS: Manejador registrado para el tipo de mensaje '"
                  +:+ messageType +:+ "'.")] ∧
  (messageHandlers this !! messageType = None →
   once.2 = [console_log ("MCP_TS: Manejador registrado para el tipo de mensaje '"
                          +:+ messageType +:+ "'.")]) ∧
  ∀ env request,
    processRequest twice.1 env request
    = processRequest (registerMessageHandler messageType new this).1 env request.
Proof.
  cbv zeta.
  assert ((registerMessageHandler messageType new
             (registerMessageHandler messageType old this).1).1
          = (registerMessageHandler messageType new this).1) as Heq.
  { unfold registerMessageHandler. simpl. by rewrite insert_insert_eq. }
  split; [exact Heq|].
  split; [apply lookup_insert_eq|].
  split; [unfold registerMessageHandler; simpl; by rewrite lookup_insert_eq|].
  split; [intros Hfree; unfold registerMessageHandler; simpl; by rewrite Hfree|].
  intros env request. by rewrite Heq.
Qed.

(** X7.  Registering a handler under a key changes nothing for the requests
    that resolve to another key: they are processed exactly as before. *)
Theorem registration_leaves_other_types_alone this env messageType handler request :
  messageTypeOf request ≠ JStr messageType →
  processRequest (registerMessageHandler messageType handler this).1 env request
  = processRequest this env request.
Proof.
  intros Hne. apply processRequest_ext; try reflexivity.
  simpl. destruct (messageTypeOf request) as [| | | | |s|]; simpl; try reflexivity.
  apply lookup_insert_ne. congruence.
Qed.

(** X8.  A request that an already registered validator rejects is processed
    exactly as before when one more validator is added: the added validator
    is not reached. *)
Theorem added_validator_not_reached_after_rejection
    this env request added pre validator post e w w1 w2 :
  requestValidators this = pre ++ validator :: post →
  validators_pass request pre w w1 →
  validator request w1 = (Throw e, w2) →
  processRequest (addRequestValidator added this).1 env request w
  = processRequest this env request w.
Proof.
  intros Hvs Hpass Hfail.
  assert (requestValidators (addRequestValidator added this).1
          = pre ++ validator :: (post ++ [added])) as Hvs'.
  { simpl. rewrite Hvs. by rewrite <- app_assoc. }
  rewrite (processRequest_validation_fails this env _ _ _ _ _ _ _ _ Hvs Hpass Hfail).
  exact (processRequest_validation_fails _ env _ _ _ _ _ _ _ _ Hvs' Hpass Hfail).
Qed.

(** X9.  An added validator is called last, on the world the earlier
    validators left: when they all pass and it throws, the request is
    rejected with VALIDATION_ERROR although it was accepted before, and no
    handler is called. *)
Theorem added_validator_can_reject this env request added e msg w w1 w2 :
  validators_pass request (requestValidators this) w w1 →
  added request w1 = (Throw e, w2) →
  Js.get_message e = Normal msg →
  ∃ response t,
    processRequest (addRequestValidator added this).1 env request w
      = (Normal response, w2, t) ∧
    code <$> error response = Some "VALIDATION_ERROR" ∧
    invocations t = validator_calls request 0 (S (length (requestValidators this))) ∧
    last (invocations t)
      = Some (Invoke (PValidator (length (requestValidators this)) request)).
Proof.
  intros Hpass Hfail Hmsg.
  assert (requestValidators (addRequestValidator added this).1
          = requestValidators this ++ added :: []) as Hvs by reflexivity.
  do 2 eexists.
  split; [rewrite (processRequest_validation_fails _ env _ _ _ _ _ _ _ _ Hvs Hpass Hfail),
            Hmsg; reflexivity|].
  split; [reflexivity|].
  split; [trace|].
  trace. apply validator_calls_last.
Qed.

(** X10.  Adding an interceptor that throws on every Response without
    writing to the Response it is given changes the outcome of no request:
    processRequest completes as it did without it (same Response, or same
    escaping fault). *)
Theorem throwing_interceptor_changes_no_response this env request
    (added : Interceptor W) w :
  (∀ r w0, ∃ e w1, added r w0 = (Throw e, w1)) →
  (∀ r w0, leaves added r w0 = r) →
  (processRequest (addResponseInterceptor added this).1 env request w).1.1
  = (processRequest this env request w).1.1.
Proof.
  intros Hthrows Hreads.
  set (this' := (addResponseInterceptor added this).1).
  assert (requestValidators this' = requestValidators this) as Hvs' by reflexivity.
  assert (messageHandlers this' = messageHandlers this) as Hhs' by reflexivity.
  assert (responseInterceptors this' = responseInterceptors this ++ [added]) as Hfs'
    by reflexivity.
  destruct (validators_run request (requestValidators this) w)
    as [[w1 Hpass]|(pre & v & post & e & w1 & w2 & Hvs & Hpass & Hfail)].
  - assert (validators_pass request (requestValidators this') w w1) as Hpass'
      by (by rewrite Hvs').
    destruct (Map_get (messageHandlers this) (messageTypeOf request))
      as [handler|] eqn:Hget.
    + assert (Map_get (messageHandlers this') (messageTypeOf request) = Some handler)
        as Hget' by (by rewrite Hhs').
      destruct (handler (message request) w1) as [[processedMessage|e] w2] eqn:Hcall.
      * destruct (processRequest_handled this env _ _ _ _ _ _ Hpass Hget Hcall)
          as [line Hrun].
        destruct (processRequest_handled this' env _ _ _ _ _ _ Hpass' Hget' Hcall)
          as [line' Hrun'].
        rewrite Hrun, Hrun'. clear Hrun Hrun'.
        destruct (interceptors_run (responseInterceptors this)
                    (producedResponse env request processedMessage) w2)
          as [(inputs & r1 & w3 & Hchain)
             |(pre & f & post & inputs & r1 & w3 & e & w4 & Hfs & Hchain & Hfault)].
        -- destruct (Hthrows r1 w3) as (e & w4 & Hadded).
           rewrite (runInterceptors_pass this request _ _ _ _ _ Hchain).
           rewrite (runInterceptors_fault this' request _ added [] _ _ _ _ _ _ _
                      Hfs' Hchain Hadded).
           by rewrite Hreads.
        -- assert (responseInterceptors this' = pre ++ f :: (post ++ [added])) as Hfs''.
           { rewrite Hfs', Hfs. by rewrite <- app_assoc. }
           rewrite (runInterceptors_fault this request _ _ _ _ _ _ _ _ _ _
                      Hfs Hchain Hfault).
           rewrite (runInterceptors_fault this' request _ _ _ _ _ _ _ _ _ _
                      Hfs'' Hchain Hfault).
           reflexivity.
      * rewrite (processRequest_handler_throws this env _ _ _ _ _ _ Hpass Hget Hcall).
        rewrite (processRequest_handler_throws this' env _ _ _ _ _ _ Hpass' Hget' Hcall).
        reflexivity.
    + assert (Map_get (messageHandlers this') (messageTypeOf request) = None)
        as Hget' by (by rewrite Hhs').
      rewrite (processRequest_no_handler this env _ _ _ Hpass Hget).
      rewrite (processRequest_no_handler this' env _ _ _ Hpass' Hget').
      reflexivity.
  - assert (requestValidators this' = pre ++ v :: post) as Hvs'' by (by rewrite Hvs').
    rewrite (processRequest_validation_fails this env _ _ _ _ _ _ _ _ Hvs Hpass Hfail).
    rewrite (processRequest_validation_fails this' env _ _ _ _ _ _ _ _ Hvs'' Hpass Hfail).
    reflexivity.
Qed.

(** X11.  Every Response refers to the request it answers: whenever
    processRequest returns, originalMessageId is the id of the inbound
    message, on the three failure paths and on both success paths, provided
    the interceptors leave that field alone. *)
Theorem response_refers_to_request this env request response w w1 t :
  processRequest this env request w = (Normal response, w1, t) →
  preserved_by (λ r, originalMessageId r = id (message request))
    (responseInterceptors this) →
  originalMessageId response = id (message request).
Proof.
  intros Hrun Hpres.
  destruct (validators_run request (requestValidators this) w)
    as [[w2 Hpass]|(pre & v & post & e & w2 & w3 & Hvs & Hpass & Hfail)].
  - destruct (Map_get (messageHandlers this) (messageTypeOf request))
      as [handler|] eqn:Hget.
    + destruct (handler (message request) w2) as [[processedMessage|e] w3] eqn:Hcall.
      * destruct (processRequest_success_path _ env _ _ _ _ _ _ Hpass Hget Hcall)
          as (response' & w4 & t' & Hres & _ & _ & Hkeep).
        rewrite Hres in Hrun. injection Hrun as <- _ _.
        by apply Hkeep.
      * rewrite (processRequest_handler_throws _ env _ _ _ _ _ _ Hpass Hget Hcall) in Hrun.
        destruct (Js.get_message e); [|discriminate]. by injection Hrun as <- _ _.
    + rewrite (processRequest_no_handler _ env _ _ _ Hpass Hget) in Hrun.
      destruct (Js.ToString (messageTypeOf request)); [|discriminate].
      by injection Hrun as <- _ _.
  - rewrite (processRequest_validation_fails _ env _ _ _ _ _ _ _ _ Hvs Hpass Hfail) in Hrun.
    destruct (Js.get_message e); [|discriminate]. by injection Hrun as <- _ _.
Qed.

(** X12.  A request that a validator rejects is processed without regard to
    the registry and to the interceptors: two planes with the same
    validators complete alike, with the same world and the same events. *)
Theorem rejected_request_ignores_handlers_and_interceptors
    this this' env request pre validator post e w w1 w2 :
  requestValidators this' = requestValidators this →
  requestValidators this = pre ++ validator :: post →
  validators_pass request pre w w1 →
  validator request w1 = (Throw e, w2) →
  processRequest this' env request w = processRequest this env request w.
Proof.
  intros Hsame Hvs Hpass Hfail.
  assert (requestValidators this' = pre ++ validator :: post) as Hvs'
    by (by rewrite Hsame).
  rewrite (processRequest_validation_fails this env _ _ _ _ _ _ _ _ Hvs Hpass Hfail).
  exact (processRequest_validation_fails this' env _ _ _ _ _ _ _ _ Hvs' Hpass Hfail).
Qed.

(** X13.  The interceptors have no part in a failure: when no handler is
    found or the handler throws, two planes that differ in their
    interceptors only complete alike, with the same world and the same
    events. *)
Theorem unhandled_request_ignores_interceptors this this' env request w w1 :
  requestValidators this' = requestValidators this →
  messageHandlers this' = messageHandlers this →
  validators_pass request (requestValidators this) w w1 →
  (Map_get (messageHandlers this) (messageTypeOf request) = None ∨
   ∃ handler e w2,
     Map_get (messageHandlers this) (messageTypeOf request) = Some handler ∧
     handler (message request) w1 = (Throw e, w2)) →
  processRequest this' env request w = processRequest this env request w.
Proof.
  intros Hvs Hhs Hpass Hpath.
  assert (validators_pass request (requestValidators this') w w1) as Hpass'
    by (by rewrite Hvs).
  destruct Hpath as [Hget|(handler & e & w2 & Hget & Hcall)].
  - assert (Map_get (messageHandlers this') (messageTypeOf request) = None) as Hget'
      by (by rewrite Hhs).
    rewrite (processRequest_no_handler this env _ _ _ Hpass Hget).
    rewrite (processRequest_no_handler this' env _ _ _ Hpass' Hget').
    by rewrite Hvs.
  - assert (Map_get (messageHandlers this') (messageTypeOf request) = Some handler)
      as Hget' by (by rewrite Hhs).
    rewrite (processRequest_handler_throws this env _ _ _ _ _ _ Hpass Hget Hcall).
    rewrite (processRequest_handler_throws this' env _ _ _ _ _ _ Hpass' Hget' Hcall).
    by rewrite Hvs.
Qed.

Lemma interceptors_pass_snoc interceptors (added : Interceptor W) r w inputs r1 w1 r2 w2 :
  interceptors_pass interceptors r w inputs r1 w1 →
  added r1 w1 = (Normal r2, w2) →
  interceptors_pass (interceptors ++ [added]) r w (inputs ++ [r1]) r2 w2.
Proof.
  induction 1 as [r w|f rest r w next w1 inputs r3 w3 Hf _ IH]; intros Hadded; simpl.
  - econstructor; [exact Hadded|constructor].
  - econstructor; [exact Hf|exact (IH Hadded)].
Qed.

(** X19.  An added interceptor is called last, on the Response the plane
    returned before it was added: when the earlier interceptors complete
    and it completes too, processRequest returns its output. *)
Theorem added_interceptor_postprocesses this env request handler processedMessage
    (added : Interceptor W) inputs r1 r2 w w1 w2 w3 w4 :
  validators_pass request (requestValidators this) w w1 →
  Map_get (messageHandlers this) (messageTypeOf request) = Some handler →
  handler (message request) w1 = (Normal processedMessage, w2) →
  interceptors_pass (responseInterceptors this)
    (producedResponse env request processedMessage) w2 inputs r1 w3 →
  added r1 w3 = (Normal r2, w4) →
  ∃ t t',
    processRequest this env request w = (Normal r1, w3, t) ∧
    processRequest (addResponseInterceptor added this).1 env request w
      = (Normal r2, w4, t') ∧
    List.filter is_interceptor_call t' = interceptor_calls 0 (inputs ++ [r1]) ∧
    last (List.filter is_interceptor_call t')
      = Some (Invoke (PInterceptor (length (responseInterceptors this)) r1)).
Proof.
  intros Hpass Hget Hdone Hchain Hadded.
  set (this' := (addResponseInterceptor added this).1).
  assert (validators_pass request (requestValidators this') w w1) as Hpass' by exact Hpass.
  assert (Map_get (messageHandlers this') (messageTypeOf request) = Some handler)
    as Hget' by exact Hget.
  assert (interceptors_pass (responseInterceptors this')
            (producedResponse env request processedMessage) w2 (inputs ++ [r1]) r2 w4)
    as Hchain' by exact (interceptors_pass_snoc _ _ _ _ _ _ _ _ _ Hchain Hadded).
  destruct (processRequest_handled this env _ _ _ _ _ _ Hpass Hget Hdone) as [line Hrun].
  destruct (processRequest_handled this' env _ _ _ _ _ _ Hpass' Hget' Hdone)
    as [line' Hrun'].
  rewrite (runInterceptors_pass this request _ _ _ _ _ Hchain) in Hrun.
  rewrite (runInterceptors_pass this' request _ _ _ _ _ Hchain') in Hrun'.
  do 2 eexists. split; [exact Hrun|]. split; [exact Hrun'|].
  assert (∀ index, last (interceptor_calls index (inputs ++ [r1]))
                   = Some (Invoke (PInterceptor (index + length inputs) r1))) as Hlast.
  { clear. induction inputs as [|r rest IH]; intros index.
    - simpl. by rewrite Nat.add_0_r.
    - change (interceptor_calls index ((r :: rest) ++ [r1]))
        with (Invoke (PInterceptor index r) :: interceptor_calls (S index) (rest ++ [r1])).
      rewrite last_cons, IH. simpl. by rewrite Nat.add_succ_r. }
  split; [trace|].
  trace. rewrite Hlast. simpl.
  by rewrite (interceptors_pass_length _ _ _ _ _ _ Hchain).
Qed.

End Further.

(** ** The configuration of exampleUsage at work *)

Section UsageProperties.

Import Usage.

Variable toISOString : Z → string.

Lemma example_validators : requestValidators (exampleUsage_mcp toISOString).1 = [exampleValidator].
Proof. reflexivity. Qed.

Lemma example_interceptors :
  responseInterceptors (exampleUsage_mcp toISOString).1 = [exampleInterceptor toISOString].
Proof. reflexivity. Qed.

Lemma example_handlers :
  messageHandlers (exampleUsage_mcp toISOString).1
  = <["system_command" := systemCommandHandler]>
      (<["text_message" := textMessageHandler]> ∅).
Proof. reflexivity. Qed.

Lemma example_lookup key handler :
  Map_get (messageHandlers (exampleUsage_mcp toISOString).1) key = Some handler →
  (key = JStr "text_message" ∧ handler = textMessageHandler) ∨
  (key = JStr "system_command" ∧ handler = systemCommandHandler).
Proof.
  rewrite example_handlers. destruct key as [| | | | |s|]; simpl; try discriminate.
  destruct (decide (s = "system_command")) as [->|Hne1].
  - rewrite lookup_insert_eq. intros [= <-]. by right.
  - rewrite lookup_insert_ne by done.
    destruct (decide (s = "text_message")) as [->|Hne2].
    + rewrite lookup_insert_eq. intros [= <-]. by left.
    + rewrite lookup_insert_ne by done. by rewrite lookup_empty.
Qed.

Lemma example_validation_passes request w :
  Js.truthy (content (message request)) = true →
  validators_pass request (requestValidators (exampleUsage_mcp toISOString).1) w (validated_world request w).
Proof.
  intros Htruthy. rewrite example_validators.
  econstructor; [|constructor]. unfold exampleValidator. by rewrite Htruthy.
Qed.

Lemma truthy_has_command v :
  Js.truthy v = true → ∃ command, get_command v = Normal command.
Proof. destruct v; simpl; try discriminate; eauto. Qed.

(** The text handler on a content that can be printed. *)
Lemma textMessageHandler_prints message text w :
  Js.ToString (content message) = Normal text →
  textMessageHandler message w =
    (Normal (Some {| id := "response-" +:+ id message +:+ "-"
                           +:+ pretty (clock w (reads w));
                     source := "agent_text_processor";
                     conversationId := conversationId message;
                     timestamp := clock w (S (reads w));
                     content := JStr ("Respuesta procesada para: " +:+ quote
                                      +:+ text +:+ quote);
                     metadata :=
                       Some {[ "processedBy" := JStr "text_message_handler_v1" ]} |}),
     {| reads := S (S (reads w));
        clock := clock w;
        printed :=
          printed w
          ++ [console_log ("MCP_TS_HANDLER (text_message): Procesando mensaje de texto: "
                           +:+ quote +:+ text +:+ quote)] |}).
Proof. intros Htext. unfold textMessageHandler. rewrite Htext. reflexivity. Qed.

(** The text handler on a content that cannot be printed: it throws at its
    first statement. *)
Lemma textMessageHandler_throws message fault w :
  Js.ToString (content message) = Throw fault →
  textMessageHandler message w = (Throw fault, w).
Proof. intros Htext. unfold textMessageHandler. by rewrite Htext. Qed.

(** The one value ToString throws. *)
Lemma ToString_fault v fault :
  Js.ToString v = Throw fault →
  fault = Js.TypeError "Cannot convert object to primitive value".
Proof.
  destruct v as [| | | | | |properties]; simpl; try discriminate.
  destruct (properties !! "toString"); [|discriminate]. by intros [= <-].
Qed.

(** With a truthy content, the system_command handler completes, and so
    does the text handler when the content can be printed. *)
Lemma example_handlers_complete request key handler w :
  Js.truthy (content (message request)) = true →
  (key = JStr "text_message" → Js.printable (content (message request)) = true) →
  Map_get (messageHandlers (exampleUsage_mcp toISOString).1) key = Some handler →
  ∃ processedMessage w1, handler (message request) w = (Normal processedMessage, w1).
Proof.
  intros Htruthy Hprints Hget.
  destruct (example_lookup _ _ Hget) as [[Hkey ->]|[_ ->]].
  - specialize (Hprints Hkey). unfold Js.printable in Hprints.
    destruct (Js.ToString (content (message request))) as [text|] eqn:Htext;
      [|discriminate].
    rewrite (textMessageHandler_prints _ _ _ Htext). eauto.
  - unfold systemCommandHandler.
    destruct (truthy_has_command _ Htruthy) as [command ->].
    destruct (is_PING command); simpl; eauto.
Qed.

Lemma example_interceptor_passes r w :
  ∃ r1 w1,
    exampleInterceptor toISOString r w = (Normal r1, w1) ∧
    interceptors_pass (responseInterceptors (exampleUsage_mcp toISOString).1) r w [r] r1 w1.
Proof.
  rewrite example_interceptors. do 2 eexists. split; [reflexivity|].
  econstructor; [reflexivity|constructor].
Qed.

(** A request with a truthy content and a registered type goes through the
    handler and the interceptor. *)
Lemma example_handled env request handler processedMessage w w2 :
  Js.truthy (content (message request)) = true →
  Map_get (messageHandlers (exampleUsage_mcp toISOString).1) (messageTypeOf request)
    = Some handler →
  handler (message request) (validated_world request w) = (Normal processedMessage, w2) →
  ∃ t,
    processRequest (exampleUsage_mcp toISOString).1 env request w
      = ((exampleInterceptor toISOString
            (producedResponse env request processedMessage) w2).1,
         (exampleInterceptor toISOString
            (producedResponse env request processedMessage) w2).2, t).
Proof.
  intros Htruthy Hget Hdone.
  pose proof (example_validation_passes request w Htruthy) as Hpass.
  destruct (processRequest_handled _ env _ _ _ _ _ _ Hpass Hget Hdone) as [line Hrun].
  destruct (example_interceptor_passes (producedResponse env request processedMessage) w2)
    as (r1 & w3 & Hcall & Hchain).
  rewrite (runInterceptors_pass _ request _ _ _ _ _ Hchain) in Hrun.
  rewrite Hcall. simpl. eexists. exact Hrun.
Qed.

(** X14.  In the configuration of exampleUsage a message with a falsy
    content (null, undefined, the empty string, 0, false) is rejected with
    VALIDATION_ERROR and the validator's message, whatever its type; no
    handler and no interceptor is called and no plug-in reads the clock. *)
Theorem example_rejects_empty_content env request w :
  Js.truthy (content (message request)) = false →
  ∃ response t,
    processRequest (exampleUsage_mcp toISOString).1 env request w
      = (Normal response, validated_world request w, t) ∧
    success response = false ∧
    error response
      = Some {| code := "VALIDATION_ERROR";
                error_message := JStr "El contenido del mensaje no puede estar vacío." |} ∧
    invocations t = [Invoke (PValidator 0 request)] ∧
    reads (validated_world request w) = reads w.
Proof.
  intros Hfalsy.
  assert (exampleValidator request w
          = (Throw (Js.Error "El contenido del mensaje no puede estar vacío."),
             validated_world request w)) as Hfail
    by (unfold exampleValidator; by rewrite Hfalsy).
  assert (requestValidators (exampleUsage_mcp toISOString).1
          = [] ++ exampleValidator :: []) as Hvs by reflexivity.
  do 2 eexists.
  split; [exact (processRequest_validation_fails _ env _ _ _ _ _ _ _ _
                   Hvs (pass_nil request w) Hfail)|].
  repeat split.
Qed.

(** X15.  In the configuration of exampleUsage every request whose type
    can be printed, and whose content can be printed if it is a
    text_message, is answered with a Response, and never with
    HANDLER_ERROR: the validator lets only truthy contents through, on
    which the [content.command] read of the system_command handler cannot
    throw.  The Response satisfies the invariant of section 3, and its
    message carries [interceptedAt] exactly when it is a success. *)
Theorem example_never_reports_handler_error env request w :
  Js.printable (messageTypeOf request) = true →
  (messageTypeOf request = JStr "text_message" →
   Js.printable (content (message request)) = true) →
  ∃ response w1 t fields,
    processRequest (exampleUsage_mcp toISOString).1 env request w
      = (Normal response, w1, t) ∧
    consistent response ∧
    code <$> error response ≠ Some "HANDLER_ERROR" ∧
    metadata (responseMessage response) = Some fields ∧
    (is_Some (fields !! "interceptedAt") ↔ success response = true).
Proof.
  intros Htype Hcontent.
  destruct (Js.truthy (content (message request))) eqn:Htruthy.
  - pose proof (example_validation_passes request w Htruthy) as Hpass.
    destruct (Map_get (messageHandlers (exampleUsage_mcp toISOString).1)
                (messageTypeOf request)) as [handler|] eqn:Hget.
    + destruct (example_handlers_complete request _ handler (validated_world request w)
                  Htruthy Hcontent Hget) as (processedMessage & w2 & Hdone).
      destruct (example_handled env _ _ _ _ _ Htruthy Hget Hdone) as [t Hrun].
      do 3 eexists.
      exists (<["interceptedAt" := JStr (toISOString (clock w2 (reads w2)))]>
                (default ∅ (metadata (responseMessage
                                        (producedResponse env request processedMessage))))).
      split; [exact Hrun|]. simpl.
      split; [split; [done|by intros [? ?]]|].
      split; [done|].
      split.
      * by destruct (metadata _).
      * split; [done|]. intros _. rewrite lookup_insert_eq. by eexists.
    + unfold Js.printable in Htype.
      destruct (Js.ToString (messageTypeOf request)) as [text|] eqn:Htext;
        [|discriminate].
      do 4 eexists.
      split; [exact (processRequest_not_found _ env _ _ _ _ Hpass Hget Htext)|].
      split; [apply buildErrorResponse_consistent|].
      split; [done|]. split; [reflexivity|].
      split; [|done]. intros [v Hv]. by rewrite lookup_singleton_ne in Hv.
  - assert (requestValidators (exampleUsage_mcp toISOString).1
            = [] ++ exampleValidator :: []) as Hvs by reflexivity.
    assert (exampleValidator request w
            = (Throw (Js.Error "El contenido del mensaje no puede estar vacío."),
               validated_world request w)) as Hfail
      by (unfold exampleValidator; by rewrite Htruthy).
    do 4 eexists.
    split; [exact (processRequest_validation_fails _ env _ _ _ _ _ _ _ _
                     Hvs (pass_nil request w) Hfail)|].
    split; [apply buildErrorResponse_consistent|].
    split; [done|]. split; [reflexivity|].
    split; [|done]. intros [v Hv]. by rewrite lookup_singleton_ne in Hv.
Qed.

(** X16.  In the configuration of exampleUsage a text_message with a truthy
    content that can be printed is answered by the text handler: a success
    from agent_text_processor in the conversation of the inbound message,
    quoting its content as the template literal prints it, with the
    handler's [processedBy] entry and the [interceptedAt] stamp of the
    interceptor, taken at the third reading of the clock. *)
Theorem example_text_reply env request text w :
  Js.truthy (content (message request)) = true →
  Js.ToString (content (message request)) = Normal text →
  messageTypeOf request = JStr "text_message" →
  ∃ response w1 t fields,
    processRequest (exampleUsage_mcp toISOString).1 env request w
      = (Normal response, w1, t) ∧
    success response = true ∧ error response = None ∧
    originalMessageId response = id (message request) ∧
    source (responseMessage response) = "agent_text_processor" ∧
    conversationId (responseMessage response) = conversationId (message request) ∧
    id (responseMessage response)
      = "response-" +:+ id (message request) +:+ "-" +:+ pretty (clock w (reads w)) ∧
    content (responseMessage response)
      = JStr ("Respuesta procesada para: " +:+ quote +:+ text +:+ quote) ∧
    metadata (responseMessage response) = Some fields ∧
    fields !! "processedBy" = Some (JStr "text_message_handler_v1") ∧
    fields !! "interceptedAt"
      = Some (JStr (toISOString (clock w (S (S (reads w)))))) ∧
    reads w1 = S (S (S (reads w))).
Proof.
  intros Htruthy Htext Hkey.
  assert (Map_get (messageHandlers (exampleUsage_mcp toISOString).1)
            (messageTypeOf request) = Some textMessageHandler) as Hget
    by (by rewrite Hkey).
  destruct (example_handled env _ _ _ w _ Htruthy Hget
              (textMessageHandler_prints _ _ _ Htext)) as [t Hrun].
  do 4 eexists. split; [exact Hrun|].
  simpl. repeat split.
Qed.

(** X20.  In the configuration of exampleUsage a text_message with a truthy
    content that cannot be printed (an object with a property named
    toString) makes the text handler throw at its first template literal:
    the Response is HANDLER_ERROR with the message of the TypeError, the
    handler has printed nothing and read no clock, and the interceptor is
    not called. *)
Theorem example_unprintable_text_is_handler_error env request fault w :
  Js.truthy (content (message request)) = true →
  Js.ToString (content (message request)) = Throw fault →
  messageTypeOf request = JStr "text_message" →
  ∃ response t,
    processRequest (exampleUsage_mcp toISOString).1 env request w
      = (Normal response, validated_world request w, t) ∧
    success response = false ∧
    error response
      = Some {| code := "HANDLER_ERROR";
                error_message := JStr "Cannot convert object to primitive value" |} ∧
    invocations t
      = [Invoke (PValidator 0 request);
         Invoke (PHandler "text_message" (message request))] ∧
    reads (validated_world request w) = reads w.
Proof.
  intros Htruthy Htext Hkey.
  assert (Map_get (messageHandlers (exampleUsage_mcp toISOString).1)
            (messageTypeOf request) = Some textMessageHandler) as Hget
    by (by rewrite Hkey).
  pose proof (example_validation_passes request w Htruthy) as Hpass.
  pose proof (textMessageHandler_throws _ _ (validated_world request w) Htext) as Hthrow.
  rewrite (ToString_fault _ _ Htext) in Hthrow.
  do 2 eexists.
  split; [exact (processRequest_handler_throws _ env _ _ _ _ _ _ Hpass Hget Hthrow)|].
  split; [reflexivity|]. split; [reflexivity|].
  split; [|reflexivity].
  rewrite Hkey. rewrite example_validators. reflexivity.
Qed.

(** X17.  In the configuration of exampleUsage a system_command whose
    content has [command] equal to 'PING' is answered with PONG: a success
    from system_core with id "pong-<id>", in the conversation of the
    inbound message, stamped by the interceptor. *)
Theorem example_ping_pong env request command_fields w :
  content (message request) = JObj command_fields →
  command_fields !! "command" = Some (JStr "PING") →
  messageTypeOf request = JStr "system_command" →
  ∃ response w1 t fields,
    processRequest (exampleUsage_mcp toISOString).1 env request w
      = (Normal response, w1, t) ∧
    success response = true ∧ error response = None ∧
    source (responseMessage response) = "system_core" ∧
    id (responseMessage response) = "pong-" +:+ id (message request) ∧
    conversationId (responseMessage response) = conversationId (message request) ∧
    content (responseMessage response)
      = JObj {[ "status" := JStr "PONG"; "details" := JStr "System is responsive" ]} ∧
    metadata (responseMessage response) = Some fields ∧
    fields !! "processedBy" = Some (JStr "system_command_handler_v1") ∧
    is_Some (fields !! "interceptedAt").
Proof.
  intros Hcontent Hcommand Hkey.
  assert (Js.truthy (content (message request)) = true) as Htruthy
    by (by rewrite Hcontent).
  assert (Map_get (messageHandlers (exampleUsage_mcp toISOString).1)
            (messageTypeOf request) = Some systemCommandHandler) as Hget
    by (by rewrite Hkey).
  assert (∃ pong w2,
            systemCommandHandler (message request) (validated_world request w)
              = (Normal (Some pong), w2) ∧
            source pong = "system_core" ∧
            id pong = "pong-" +:+ id (message request) ∧
            conversationId pong = conversationId (message request) ∧
            content pong
              = JObj {[ "status" := JStr "PONG";
                        "details" := JStr "System is responsive" ]} ∧
            metadata pong
              = Some {[ "processedBy" := JStr "system_command_handler_v1" ]})
    as (pong & w2 & Hdone & Hsource & Hid & Hconv & Hpong & Hmd).
  { unfold systemCommandHandler. rewrite Hcontent. simpl. rewrite Hcommand. simpl.
    do 2 eexists. split; [reflexivity|]. by repeat split. }
  destruct (example_handled env _ _ _ w _ Htruthy Hget Hdone) as [t Hrun].
  do 4 eexists. split; [exact Hrun|].
  simpl. rewrite Hmd. repeat split; try assumption.
  rewrite lookup_insert_eq. by eexists.
Qed.

(** X18.  In the configuration of exampleUsage a system_command with a
    truthy content that is not a PING (another command, no [command]
    property, a string or a number) is consumed without reply: the handler
    returns null and the Response is the success carrying the no-reply
    message of mcp_system, stamped by the interceptor like any success. *)
Theorem example_other_command_gets_no_reply env request command w :
  Js.truthy (content (message request)) = true →
  get_command (content (message request)) = Normal command →
  is_PING command = false →
  messageTypeOf request = JStr "system_command" →
  ∃ response w1 t fields,
    processRequest (exampleUsage_mcp toISOString).1 env request w
      = (Normal response, w1, t) ∧
    success response = true ∧ error response = None ∧
    source (responseMessage response) = "mcp_system" ∧
    conversationId (responseMessage response) = conversationId (message request) ∧
    metadata (responseMessage response) = Some fields ∧
    fields !! "status" = Some (JStr "PROCESSED_NO_REPLY") ∧
    fields !! "originalMessageId" = Some (JStr (id (message request))) ∧
    is_Some (fields !! "interceptedAt") ∧
    List.filter is_handler_call t
      = [Invoke (PHandler "system_command" (message request))].
Proof.
  intros Htruthy Hcommand Hother Hkey.
  assert (Map_get (messageHandlers (exampleUsage_mcp toISOString).1)
            (messageTypeOf request) = Some systemCommandHandler) as Hget
    by (by rewrite Hkey).
  assert (systemCommandHandler (message request) (validated_world request w)
          = (Normal None, print (Console LogLevel
                                   "MCP_TS_HANDLER (system_command): Procesando comando:"
                                   [content (message request)])
                            (validated_world request w))) as Hdone.
  { unfold systemCommandHandler. by rewrite Hcommand, Hother. }
  pose proof (example_validation_passes request w Htruthy) as Hpass.
  destruct (processRequest_handled _ env _ _ _ _ _ _ Hpass Hget Hdone) as [line Hrun].
  destruct (example_interceptor_passes (producedResponse env request None)
              (print (Console LogLevel
                        "MCP_TS_HANDLER (system_command): Procesando comando:"
                        [content (message request)])
                 (validated_world request w)))
    as (r1 & w3 & Hcall & Hchain).
  rewrite (runInterceptors_pass _ request _ _ _ _ _ Hchain) in Hrun.
  injection Hcall as <- <-.
  do 4 eexists. split; [exact Hrun|].
  split; [reflexivity|]. split; [reflexivity|]. split; [reflexivity|].
  split; [reflexivity|]. split; [reflexivity|].
  split; [by rewrite lookup_insert_ne by done|].
  split; [by rewrite lookup_insert_ne by done|].
  split; [rewrite lookup_insert_eq; by eexists|].
  rewrite Hkey. trace.
Qed.

End UsageProperties.

(** ** Witnesses for the further properties *)

Section FurtherConcrete.

Import Examples.

Lemma basic_plane_validated :
  validators_pass typed_request (requestValidators basic_plane) [] ["v1"].
Proof. repeat econstructor. Defined.

(** Witness for X1. *)
Lemma plugins_called_in_stage_order_witness :
  validators_pass typed_request (requestValidators basic_plane) [] ["v1"] ∧
  Map_get (messageHandlers basic_plane) (messageTypeOf typed_request)
    = Some replying_handler ∧
  replying_handler (message typed_request) ["v1"]
    = (Normal (Some typed_reply), ["v1"; "handler"]) ∧
  ∃ response journal t inputs,
    processRequest basic_plane env0 typed_request [] = (Normal response, journal, t) ∧
    invocations t =
      validator_calls typed_request 0 1
      ++ Invoke (PHandler "typeA" (message typed_request))
      :: interceptor_calls 0 inputs ∧
    head inputs = Some (successResponse typed_request typed_reply).
Proof.
  split; [exact basic_plane_validated|]. split; [reflexivity|]. split; [reflexivity|].
  destruct (plugins_called_in_stage_order basic_plane env0 typed_request
              replying_handler (Some typed_reply) [] ["v1"] ["v1"; "handler"]
              basic_plane_validated eq_refl eq_refl)
    as (response & journal & t & inputs & Hrun & Hcalls & _ & Hhead).
  exists response, journal, t, inputs.
  split; [exact Hrun|]. split; [exact Hcalls|]. by apply Hhead.
Defined.

(** Witness for X2: the run of the failing input of C2, where the second
    validator throws null, and the run of a request whose type is
    [{ toString: 5 }] on a plane without handlers. *)
Lemma fault_origin_witness :
  (∃ fault journal t,
     processRequest (rejecting_plane JNull) env0 typed_request []
       = (Throw fault, journal, t) ∧
     ∃ e, Js.nullish e = true ∧ Js.get_message e = Throw fault) ∧
  (∃ fault journal t,
     processRequest (unrouted_plane [passing_validator "v1"]) env0
       unprintable_type_request [] = (Throw fault, journal, t) ∧
     Js.ToString (messageTypeOf unprintable_type_request) = Throw fault).
Proof.
  split.
  - do 3 eexists.
    assert (processRequest (rejecting_plane JNull) env0 typed_request []
            = (Throw (Js.TypeError "Cannot read properties of null (reading 'message')"),
               ["v1"; "v2"],
               (processRequest (rejecting_plane JNull) env0 typed_request []).2)) as Hrun
      by (vm_compute; reflexivity).
    split; [exact Hrun|].
    destruct (fault_origin _ _ _ _ _ _ _ Hrun)
      as [(e & Hnull & Hmsg & _)|(_ & Hget & _)].
    + by exists e.
    + discriminate Hget.
  - do 3 eexists.
    assert (processRequest (unrouted_plane [passing_validator "v1"]) env0
              unprintable_type_request []
            = (Throw (Js.TypeError "Cannot convert object to primitive value"),
               ["v1"],
               (processRequest (unrouted_plane [passing_validator "v1"]) env0
                  unprintable_type_request []).2)) as Hrun
      by (vm_compute; reflexivity).
    split; [exact Hrun|].
    destruct (fault_origin _ _ _ _ _ _ _ Hrun)
      as [(e & _ & _ & [(pre & v & post & w1 & Hvs & _ & Hfail)
                       |(handler & w1 & _ & Hget & _)])
         |(_ & _ & Htext & _)].
    + destruct pre as [|first pre].
      * injection Hvs as <- _. discriminate Hfail.
      * injection Hvs as _ Hrest. by destruct pre.
    + discriminate Hget.
    + exact Htext.
Defined.

(** Witness for X3: the validator rejects with [new Error('Validation failed')]. *)
Lemma validation_error_message_witness :
  validators_pass typed_request [passing_validator "v1"] [] ["v1"] ∧
  Js.get_message (Js.Error "Validation failed") = Normal (JStr "Validation failed") ∧
  ∃ response t,
    processRequest (rejecting_plane (Js.Error "Validation failed")) env0 typed_request []
      = (Normal response, ["v1"; "v2"], t) ∧
    error response
      = Some {| code := "VALIDATION_ERROR"; error_message := JStr "Validation failed" |}.
Proof.
  assert (validators_pass typed_request [passing_validator "v1"] [] ["v1"]) as Hpass
    by (repeat econstructor).
  split; [exact Hpass|]. split; [reflexivity|].
  destruct (validation_error_message
              (rejecting_plane (Js.Error "Validation failed")) env0 typed_request
              [passing_validator "v1"]
              (rejecting_validator "v2" (Js.Error "Validation failed"))
              [passing_validator "v3"] (Js.Error "Validation failed")
              (JStr "Validation failed") [] ["v1"] ["v1"; "v2"]
              eq_refl Hpass eq_refl eq_refl)
    as (response & t & reported & Hrun & Herror & _ & _ & Htruthy & _).
  exists response, t. split; [exact Hrun|]. by rewrite Herror, (Htruthy eq_refl).
Defined.

(** Witness for X4: a handler is registered under the string "5"; a
    message whose type is the number 5 does not find it, and a message
    whose type is [{ toString: 5 }] makes processRequest throw. *)
Lemma non_string_type_finds_no_handler_witness :
  metadata (message numeric_type_request) = Some {[ "type" := JNum 5 eq_refl ]} ∧
  messageHandlers (plane {[ "5" := replying_handler ]} [] []) !! "5"
    = Some replying_handler ∧
  (∃ response t,
     processRequest (plane {[ "5" := replying_handler ]} [] []) env0
       numeric_type_request [] = (Normal response, [], t) ∧
     error response
       = Some {| code := "HANDLER_NOT_FOUND";
                 error_message :=
                   JStr "No se encontró un manejador para el tipo de mensaje '5' (ID: msg-5)." |} ∧
     List.filter is_handler_call t = []) ∧
  (∃ t,
     processRequest (plane {[ "5" := replying_handler ]} [] []) env0
       unprintable_type_request []
     = (Throw (Js.TypeError "Cannot convert object to primitive value"), [], t) ∧
     List.filter is_handler_call t = []).
Proof.
  split; [reflexivity|]. split; [reflexivity|]. split.
  - assert (∀ s, JNum 5 eq_refl ≠ JStr s) as Hnot by (intros s H; discriminate H).
    destruct (non_string_type_finds_no_handler
                (plane {[ "5" := replying_handler ]} [] []) env0 numeric_type_request
                {[ "type" := JNum 5 eq_refl ]} (JNum 5 eq_refl) [] []
                eq_refl eq_refl eq_refl Hnot (pass_nil _ _))
      as (_ & t & Hrun & Hcalls).
    eexists. exists t. split; [exact Hrun|]. split; [reflexivity|exact Hcalls].
  - assert (∀ s, JObj {[ "toString" := JNum 5 eq_refl ]} ≠ JStr s) as Hnot
      by (intros s H; discriminate H).
    destruct (non_string_type_finds_no_handler
                (plane {[ "5" := replying_handler ]} [] []) env0 unprintable_type_request
                {[ "type" := JObj {[ "toString" := JNum 5 eq_refl ]} ]}
                (JObj {[ "toString" := JNum 5 eq_refl ]}) [] []
                eq_refl eq_refl eq_refl Hnot (pass_nil _ _))
      as (_ & t & Hrun & Hcalls).
    exists t. split; [exact Hrun|exact Hcalls].
Defined.

(** Witness for X7: a handler registered under "typeB" leaves a "typeA"
    request alone. *)
Lemma registration_leaves_other_types_alone_witness :
  messageTypeOf typed_request ≠ JStr "typeB" ∧
  processRequest (registerMessageHandler "typeB" silent_handler basic_plane).1 env0
    typed_request
  = processRequest basic_plane env0 typed_request.
Proof.
  assert (messageTypeOf typed_request ≠ JStr "typeB") as Hne by discriminate.
  split; [exact Hne|].
  exact (registration_leaves_other_types_alone basic_plane env0 "typeB" silent_handler
           typed_request Hne).
Defined.

(** Witness for X8: the second validator rejects; a fourth one is added. *)
Lemma added_validator_not_reached_after_rejection_witness :
  validators_pass typed_request [passing_validator "v1"] [] ["v1"] ∧
  processRequest
    (addRequestValidator (passing_validator "v4")
       (rejecting_plane (Js.Error "Validation failed"))).1 env0 typed_request []
  = processRequest (rejecting_plane (Js.Error "Validation failed")) env0 typed_request [].
Proof.
  assert (validators_pass typed_request [passing_validator "v1"] [] ["v1"]) as Hpass
    by (repeat econstructor).
  split; [exact Hpass|].
  exact (added_validator_not_reached_after_rejection
           (rejecting_plane (Js.Error "Validation failed")) env0 typed_request
           (passing_validator "v4") [passing_validator "v1"]
           (rejecting_validator "v2" (Js.Error "Validation failed"))
           [passing_validator "v3"] _ [] ["v1"] ["v1"; "v2"] eq_refl Hpass eq_refl).
Defined.

(** Witness for X9: a rejecting validator is added to a plane that accepted
    the request. *)
Lemma added_validator_can_reject_witness :
  validators_pass typed_request (requestValidators basic_plane) [] ["v1"] ∧
  ∃ response t,
    processRequest
      (addRequestValidator (rejecting_validator "v2" (Js.Error "Validation failed"))
         basic_plane).1 env0 typed_request [] = (Normal response, ["v1"; "v2"], t) ∧
    code <$> error response = Some "VALIDATION_ERROR" ∧
    last (invocations t) = Some (Invoke (PValidator 1 typed_request)).
Proof.
  split; [exact basic_plane_validated|].
  destruct (added_validator_can_reject basic_plane env0 typed_request
              (rejecting_validator "v2" (Js.Error "Validation failed"))
              (Js.Error "Validation failed") (JStr "Validation failed")
              [] ["v1"] ["v1"; "v2"] basic_plane_validated eq_refl eq_refl)
    as (response & t & Hrun & Hcode & _ & Hlast).
  by exists response, t.
Defined.

(** Witness for X10: the faulty interceptor of the test suite is added. *)
Lemma throwing_interceptor_changes_no_response_witness :
  (∀ r w0, ∃ e w1, failing_interceptor r w0 = (Throw e, w1)) ∧
  (∀ r w0, leaves failing_interceptor r w0 = r) ∧
  (processRequest (addResponseInterceptor failing_interceptor basic_plane).1 env0
     typed_request []).1.1
  = (processRequest basic_plane env0 typed_request []).1.1.
Proof.
  assert (∀ r w0, ∃ e w1, failing_interceptor r w0 = (Throw e, w1)) as Hthrows
    by (intros r w0; do 2 eexists; reflexivity).
  assert (∀ r (w0 : Journal), leaves failing_interceptor r w0 = r) as Hreads
    by reflexivity.
  split; [exact Hthrows|]. split; [exact Hreads|].
  exact (throwing_interceptor_changes_no_response basic_plane env0 typed_request
           failing_interceptor [] Hthrows Hreads).
Defined.

(** Witness for X11: the tagging interceptor leaves originalMessageId
    alone. *)
Lemma response_refers_to_request_witness :
  preserved_by (λ r, originalMessageId r = id (message typed_request))
    (responseInterceptors basic_plane) ∧
  ∃ response journal t,
    processRequest basic_plane env0 typed_request [] = (Normal response, journal, t) ∧
    originalMessageId response = "msg-1".
Proof.
  assert (preserved_by (λ r, originalMessageId r = id (message typed_request))
            (responseInterceptors basic_plane)) as Hpres.
  { intros interceptor r w Hin HP.
    apply list_elem_of_singleton in Hin as ->.
    split; [intros next w1 [= <- _]; exact HP|intros e w1; discriminate]. }
  split; [exact Hpres|].
  assert (processRequest basic_plane env0 typed_request []
          = (Normal (tagging_interceptor "audit" (successResponse typed_request typed_reply)),
             ["v1"; "handler"; "audit"],
             (processRequest basic_plane env0 typed_request []).2)) as Hrun
    by (vm_compute; reflexivity).
  do 3 eexists. split; [exact Hrun|].
  exact (response_refers_to_request basic_plane env0 typed_request _ _ _ _ Hrun Hpres).
Defined.

(** Witness for X12: the registry and the interceptors are emptied. *)
Lemma rejected_request_ignores_handlers_and_interceptors_witness :
  validators_pass typed_request [passing_validator "v1"] [] ["v1"] ∧
  processRequest
    (plane ∅ (requestValidators (rejecting_plane (Js.Error "Validation failed"))) [])
    env0 typed_request []
  = processRequest (rejecting_plane (Js.Error "Validation failed")) env0 typed_request [].
Proof.
  assert (validators_pass typed_request [passing_validator "v1"] [] ["v1"]) as Hpass
    by (repeat econstructor).
  split; [exact Hpass|].
  exact (rejected_request_ignores_handlers_and_interceptors
           (rejecting_plane (Js.Error "Validation failed"))
           (plane ∅ (requestValidators (rejecting_plane (Js.Error "Validation failed"))) [])
           env0 typed_request [passing_validator "v1"]
           (rejecting_validator "v2" (Js.Error "Validation failed"))
           [passing_validator "v3"] _ [] ["v1"] ["v1"; "v2"]
           eq_refl eq_refl Hpass eq_refl).
Defined.

(** Witness for X13: the handler throws; the interceptors are replaced. *)
Lemma unhandled_request_ignores_interceptors_witness :
  validators_pass typed_request
    (requestValidators (failing_handler_plane (Js.Error "Handler failed"))) [] ["v1"] ∧
  processRequest
    (plane {[ "typeA" := failing_handler (Js.Error "Handler failed") ]}
       [passing_validator "v1"] [refusing_interceptor; failing_interceptor])
    env0 typed_request []
  = processRequest (failing_handler_plane (Js.Error "Handler failed")) env0
      typed_request [].
Proof.
  assert (validators_pass typed_request
            (requestValidators (failing_handler_plane (Js.Error "Handler failed")))
            [] ["v1"]) as Hpass by (repeat econstructor).
  split; [exact Hpass|].
  apply (unhandled_request_ignores_interceptors
           (failing_handler_plane (Js.Error "Handler failed")) _ env0 typed_request
           [] ["v1"] eq_refl eq_refl Hpass).
  right. exists (failing_handler (Js.Error "Handler failed")), (Js.Error "Handler failed"),
    ["v1"; "handler"]. by split.
Defined.

(** Witness for X19: interceptor B is added to a plane that has
    interceptor A. *)
Lemma added_interceptor_postprocesses_witness :
  validators_pass typed_request
    (requestValidators (plane {[ "typeA" := replying_handler ]} [] [tagging "A"])) [] [] ∧
  interceptors_pass
    (responseInterceptors (plane {[ "typeA" := replying_handler ]} [] [tagging "A"]))
    (producedResponse env0 typed_request (Some typed_reply)) ["handler"]
    [successResponse typed_request typed_reply]
    (tagging_interceptor "A" (successResponse typed_request typed_reply))
    ["handler"; "A"] ∧
  ∃ t',
    processRequest
      (addResponseInterceptor (tagging "B")
         (plane {[ "typeA" := replying_handler ]} [] [tagging "A"])).1
      env0 typed_request []
    = (Normal (tagging_interceptor "B"
                 (tagging_interceptor "A" (successResponse typed_request typed_reply))),
       ["handler"; "A"; "B"], t').
Proof.
  assert (validators_pass typed_request
            (requestValidators (plane {[ "typeA" := replying_handler ]} [] [tagging "A"]))
            [] []) as Hpass by constructor.
  assert (interceptors_pass
            (responseInterceptors (plane {[ "typeA" := replying_handler ]} [] [tagging "A"]))
            (producedResponse env0 typed_request (Some typed_reply)) ["handler"]
            [successResponse typed_request typed_reply]
            (tagging_interceptor "A" (successResponse typed_request typed_reply))
            ["handler"; "A"]) as Hchain by (repeat econstructor).
  split; [exact Hpass|]. split; [exact Hchain|].
  destruct (added_interceptor_postprocesses
              (plane {[ "typeA" := replying_handler ]} [] [tagging "A"]) env0
              typed_request replying_handler (Some typed_reply) (tagging "B")
              _ _ (tagging_interceptor "B"
                     (tagging_interceptor "A" (successResponse typed_request typed_reply)))
              [] [] ["handler"] ["handler"; "A"] ["handler"; "A"; "B"]
              Hpass eq_refl eq_refl Hchain eq_refl)
    as (t & t' & _ & Hrun' & _).
  by exists t'.
Defined.

End FurtherConcrete.

Section UsageConcrete.

Import Usage.

(** Witness for X14: Ejemplo 4 of exampleUsage, a message with content
    null. *)
Lemma example_rejects_empty_content_witness :
  Js.truthy (content invalidMessage) = false ∧
  ∃ response t,
    processRequest (exampleUsage_mcp fixed_iso).1 Examples.env0
      {| message := invalidMessage |} world0
      = (Normal response, validated_world {| message := invalidMessage |} world0, t) ∧
    error response
      = Some {| code := "VALIDATION_ERROR";
                error_message := JStr "El contenido del mensaje no puede estar vacío." |}.
Proof.
  split; [reflexivity|].
  destruct (example_rejects_empty_content fixed_iso Examples.env0
              {| message := invalidMessage |} world0 eq_refl)
    as (response & t & Hrun & _ & Herror & _).
  by exists response, t.
Defined.

(** Witness for X15: Ejemplo 1 of exampleUsage. *)
Lemma example_never_reports_handler_error_witness :
  Js.printable (messageTypeOf {| message := userTextMessage |}) = true ∧
  Js.printable (content userTextMessage) = true ∧
  ∃ response w1 t,
    processRequest (exampleUsage_mcp fixed_iso).1 Examples.env0
      {| message := userTextMessage |} world0 = (Normal response, w1, t) ∧
    code <$> error response ≠ Some "HANDLER_ERROR".
Proof.
  split; [reflexivity|]. split; [reflexivity|].
  destruct (example_never_reports_handler_error fixed_iso Examples.env0
              {| message := userTextMessage |} world0 eq_refl (λ _, eq_refl))
    as (response & w1 & t & fields & Hrun & _ & Hcode & _).
  by exists response, w1, t.
Defined.

(** Witness for X16: Ejemplo 1 of exampleUsage. *)
Lemma example_text_reply_witness :
  Js.truthy (content userTextMessage) = true ∧
  Js.ToString (content userTextMessage) = Normal "Hola" ∧
  messageTypeOf {| message := userTextMessage |} = JStr "text_message" ∧
  ∃ response w1 t,
    processRequest (exampleUsage_mcp fixed_iso).1 Examples.env0
      {| message := userTextMessage |} world0 = (Normal response, w1, t) ∧
    success response = true ∧
    conversationId (responseMessage response) = "conv-123" ∧
    id (responseMessage response) = "response-user-msg-1-1700000000000" ∧
    content (responseMessage response)
      = JStr ("Respuesta procesada para: " +:+ quote +:+ "Hola" +:+ quote).
Proof.
  split; [reflexivity|]. split; [reflexivity|]. split; [reflexivity|].
  destruct (example_text_reply fixed_iso Examples.env0
              {| message := userTextMessage |} "Hola" world0 eq_refl eq_refl eq_refl)
    as (response & w1 & t & fields & Hrun & Hsuccess & _ & _ & _ & Hconv & Hid
        & Hcontent & _).
  exists response, w1, t. by repeat split.
Defined.

(** Witness for X20: a text message with content [{ toString: 5 }]. *)
Lemma example_unprintable_text_is_handler_error_witness :
  Js.truthy (content unprintableTextMessage) = true ∧
  Js.ToString (content unprintableTextMessage)
    = Throw (Js.TypeError "Cannot convert object to primitive value") ∧
  messageTypeOf {| message := unprintableTextMessage |} = JStr "text_message" ∧
  ∃ response t,
    processRequest (exampleUsage_mcp fixed_iso).1 Examples.env0
      {| message := unprintableTextMessage |} world0
      = (Normal response, validated_world {| message := unprintableTextMessage |} world0,
         t) ∧
    code <$> error response = Some "HANDLER_ERROR".
Proof.
  split; [reflexivity|]. split; [reflexivity|]. split; [reflexivity|].
  destruct (example_unprintable_text_is_handler_error fixed_iso Examples.env0
              {| message := unprintableTextMessage |} _ world0 eq_refl eq_refl eq_refl)
    as (response & t & Hrun & _ & Herror & _).
  exists response, t. split; [exact Hrun|]. by rewrite Herror.
Defined.

(** Witness for X17: Ejemplo 2 of exampleUsage. *)
Lemma example_ping_pong_witness :
  content systemCommandMessage = JObj {[ "command" := JStr "PING" ]} ∧
  messageTypeOf {| message := systemCommandMessage |} = JStr "system_command" ∧
  ∃ response w1 t,
    processRequest (exampleUsage_mcp fixed_iso).1 Examples.env0
      {| message := systemCommandMessage |} world0 = (Normal response, w1, t) ∧
    success response = true ∧
    source (responseMessage response) = "system_core" ∧
    id (responseMessage response) = "pong-cmd-msg-1".
Proof.
  split; [reflexivity|]. split; [reflexivity|].
  destruct (example_ping_pong fixed_iso Examples.env0
              {| message := systemCommandMessage |} {[ "command" := JStr "PING" ]} world0
              eq_refl eq_refl eq_refl)
    as (response & w1 & t & fields & Hrun & Hsuccess & _ & Hsource & Hid & _).
  by exists response, w1, t.
Defined.

(** Witness for X18: the command is STATUS. *)
Lemma example_other_command_gets_no_reply_witness :
  Js.truthy (content statusCommandMessage) = true ∧
  get_command (content statusCommandMessage) = Normal (JStr "STATUS") ∧
  is_PING (JStr "STATUS") = false ∧
  ∃ response w1 t,
    processRequest (exampleUsage_mcp fixed_iso).1 Examples.env0
      {| message := statusCommandMessage |} world0 = (Normal response, w1, t) ∧
    success response = true ∧
    source (responseMessage response) = "mcp_system".
Proof.
  split; [reflexivity|]. split; [reflexivity|]. split; [reflexivity|].
  destruct (example_other_command_gets_no_reply fixed_iso Examples.env0
              {| message := statusCommandMessage |} (JStr "STATUS") world0
              eq_refl eq_refl eq_refl eq_refl)
    as (response & w1 & t & fields & Hrun & Hsuccess & _ & Hsource & _).
  by exists response, w1, t.
Defined.

End UsageConcrete.
